(** * Compose Chat: the ChatApp controller

    A shallow embedding of [ChatApp] (the React component holding the
    session, the message feed and the profile cache) together with the
    properties of its session and feed state machine.

    Layout of the development:
    - [Js]        strings as UTF-16 code units, [trim], truthiness;
    - [Message], [Profile], [Session]   the records of the component;
    - [State]     the [useState] cells of the component;
    - [Handler]   a state/trace/exception monad for the event handlers;
    - the handlers themselves, in the order of the source;
    - the render pass and the effect machinery of the host framework;
    - the password input as the browser validates it;
    - the theorems. *)

From stdpp Require Import base option list gmap.
From Stdlib Require Import ZArith NArith Lia.
From Stdlib Require Strings.String Strings.Ascii.
Import String.StringSyntax.

Local Open Scope string_scope.
Local Open Scope N_scope.

(* ===================================================================== *)
(** ** JavaScript strings *)
(* ===================================================================== *)

Module Js.

(** A JavaScript string is a sequence of UTF-16 code units. *)
Definition str := list N.

(** String literals of the source, which are all ASCII. *)
Definition lit (s : String.string) : str :=
  List.map Ascii.N_of_ascii (String.list_ascii_of_string s).

(** ECMAScript [WhiteSpace] and [LineTerminator] code points: the
    characters [String.prototype.trim] strips. *)
Definition is_white_space (c : N) : bool :=
  (c =? 0x9) || (c =? 0xA) || (c =? 0xB) || (c =? 0xC) || (c =? 0xD)
  || (c =? 0x20) || (c =? 0xA0) || (c =? 0x1680)
  || ((0x2000 <=? c) && (c <=? 0x200A))
  || (c =? 0x2028) || (c =? 0x2029) || (c =? 0x202F) || (c =? 0x205F)
  || (c =? 0x3000) || (c =? 0xFEFF).

Fixpoint trimStart (s : str) : str :=
  match s with
  | c :: s' => if is_white_space c then trimStart s' else s
  | [] => []
  end.

Definition trimEnd (s : str) : str := rev (trimStart (rev s)).

(** [s.trim()] *)
Definition trim (s : str) : str := trimEnd (trimStart s).

(** Truthiness of a string: every string but the empty one. *)
Definition truthy (s : str) : bool :=
  match s with [] => false | _ :: _ => true end.

(** Empty or made of white space only. *)
Definition blank (s : str) : bool := forallb is_white_space s.

(** A caught exception, of which the source reads [message]. *)
Record Error := { message : str }.

End Js.

(* ===================================================================== *)
(** ** Data model *)
(* ===================================================================== *)

Module Message.
Record t := {
  id : Z;
  created_at : Js.str;
  content : Js.str;
  user_id : Js.str;
  user_email : Js.str;
  profile_url : option Js.str
}.
End Message.

Module Profile.
Record t := {
  id : Js.str;
  username : Js.str;
  avatar_url : option Js.str;
  updated_at : option Js.str
}.
End Profile.

Module Session.
Record User := { id : Js.str; email : option Js.str }.
Record t := { access_token : Js.str; user : User }.
End Session.

Inductive View := chat | login | signup.

Definition View_eqb (a b : View) : bool :=
  match a, b with
  | chat, chat | login, login | signup, signup => true
  | _, _ => false
  end.

(** The [useState] cells of the component.  [profiles] is the
    [Record<string, Profile>] object, used as a map from user id to
    profile. *)
Record State := {
  session : option Session.t;
  messages : list Message.t;
  newMessage : Js.str;
  loading : bool;
  email : Js.str;
  password : Js.str;
  view : View;
  error : option Js.str;
  menuOpen : bool;
  profiles : gmap Js.str Profile.t
}.

(** The state of the first render: the initial values given to
    [useState]. *)
Definition initial : State := {|
  session := None; messages := []; newMessage := []; loading := true;
  email := []; password := []; view := login; error := None;
  menuOpen := false; profiles := ∅
|}.

Definition setSession (v : option Session.t) (s : State) : State :=
  {| session := v; messages := messages s; newMessage := newMessage s;
     loading := loading s; email := email s; password := password s;
     view := view s; error := error s; menuOpen := menuOpen s;
     profiles := profiles s |}.

(** [setMessages] takes an updater, as in [setMessages(prev => ...)];
    [setMessages(data)] is the constant updater. *)
Definition setMessages (f : list Message.t → list Message.t) (s : State) : State :=
  {| session := session s; messages := f (messages s); newMessage := newMessage s;
     loading := loading s; email := email s; password := password s;
     view := view s; error := error s; menuOpen := menuOpen s;
     profiles := profiles s |}.

Definition setNewMessage (v : Js.str) (s : State) : State :=
  {| session := session s; messages := messages s; newMessage := v;
     loading := loading s; email := email s; password := password s;
     view := view s; error := error s; menuOpen := menuOpen s;
     profiles := profiles s |}.

Definition setLoading (v : bool) (s : State) : State :=
  {| session := session s; messages := messages s; newMessage := newMessage s;
     loading := v; email := email s; password := password s;
     view := view s; error := error s; menuOpen := menuOpen s;
     profiles := profiles s |}.

Definition setEmail (v : Js.str) (s : State) : State :=
  {| session := session s; messages := messages s; newMessage := newMessage s;
     loading := loading s; email := v; password := password s;
     view := view s; error := error s; menuOpen := menuOpen s;
     profiles := profiles s |}.

Definition setPassword (v : Js.str) (s : State) : State :=
  {| session := session s; messages := messages s; newMessage := newMessage s;
     loading := loading s; email := email s; password := v;
     view := view s; error := error s; menuOpen := menuOpen s;
     profiles := profiles s |}.

Definition setView (v : View) (s : State) : State :=
  {| session := session s; messages := messages s; newMessage := newMessage s;
     loading := loading s; email := email s; password := password s;
     view := v; error := error s; menuOpen := menuOpen s;
     profiles := profiles s |}.

Definition setError (v : option Js.str) (s : State) : State :=
  {| session := session s; messages := messages s; newMessage := newMessage s;
     loading := loading s; email := email s; password := password s;
     view := view s; error := v; menuOpen := menuOpen s;
     profiles := profiles s |}.

Definition setMenuOpen (v : bool) (s : State) : State :=
  {| session := session s; messages := messages s; newMessage := newMessage s;
     loading := loading s; email := email s; password := password s;
     view := view s; error := error s; menuOpen := v;
     profiles := profiles s |}.

Definition setProfiles
    (f : gmap Js.str Profile.t → gmap Js.str Profile.t) (s : State) : State :=
  {| session := session s; messages := messages s; newMessage := newMessage s;
     loading := loading s; email := email s; password := password s;
     view := view s; error := error s; menuOpen := menuOpen s;
     profiles := f (profiles s) |}.

(* ===================================================================== *)
(** ** Backend calls and the handler monad *)
(* ===================================================================== *)

(** The requests the component sends through the Supabase client. *)
Inductive Call :=
| AuthSignInWithPassword (email password : Js.str)
| AuthSignUp (email password : Js.str)
| AuthSignOut
| SelectMessages (order_by : Js.str) (ascending : bool)
| SelectProfilesIn (column : Js.str) (ids : list Js.str)
| InsertMessage (content user_id : Js.str) (user_email : option Js.str).

(** What a handler does besides updating the state. *)
Inductive Effect :=
| PreventDefault
| Request (c : Call)
| ConsoleError (label : Js.str) (e : Js.Error).

(** The settlement of an awaited client call: the promise either resolves
    to a [{ data, error }] object or rejects. *)
Inductive Reply (A : Type) :=
| Resolved (data : option A) (error : option Js.Error)
| Rejects (e : Js.Error).
Arguments Resolved {A} data error.
Arguments Rejects {A} e.

Inductive Outcome (A : Type) :=
| Return (a : A)
| Throw (e : Js.Error).
Arguments Return {A} a.
Arguments Throw {A} e.

(** A handler threads the state cells and the trace of its effects, and
    either returns or throws. *)
Definition Handler (A : Type) : Type := State → State * list Effect * Outcome A.

#[export] Instance Handler_ret : MRet Handler :=
  λ A a s, (s, [], Return a).

#[export] Instance Handler_bind : MBind Handler :=
  λ A B k m s,
    match m s with
    | (s1, t1, Return a) =>
        let '(s2, t2, o) := k a s1 in (s2, t1 ++ t2, o)
    | (s1, t1, Throw e) => (s1, t1, Throw e)
    end.

Definition ret {A} (a : A) : Handler A := mret a.

Definition throw {A} (e : Js.Error) : Handler A := λ s, (s, [], Throw e).
Definition emit (x : Effect) : Handler unit := λ s, (s, [x], Return ()).
Definition modify (f : State → State) : Handler unit := λ s, (f s, [], Return ()).

(** [try { body } catch (error) { handler error }] *)
Definition try_catch {A} (body : Handler A) (handler : Js.Error → Handler A)
    : Handler A :=
  λ s, match body s with
       | (s1, t1, Return a) => (s1, t1, Return a)
       | (s1, t1, Throw e) =>
           let '(s2, t2, o) := handler e s1 in (s2, t1 ++ t2, o)
       end.

(** [try { body } finally { fin }] *)
Definition try_finally {A} (body : Handler A) (fin : Handler unit) : Handler A :=
  λ s, let '(s1, t1, o) := body s in
       match fin s1 with
       | (s2, t2, Return _) => (s2, t1 ++ t2, o)
       | (s2, t2, Throw e) => (s2, t1 ++ t2, Throw e)
       end.

(** [await call]: the request goes out; a rejection is thrown. *)
Definition await {A} (c : Call) (r : Reply A)
    : Handler (option A * option Js.Error) :=
  emit (Request c);;
  match r with
  | Resolved data error => ret (data, error)
  | Rejects e => throw e
  end.

(** [if (error) throw error;] *)
Definition throw_if (error : option Js.Error) : Handler unit :=
  match error with
  | Some e => throw e
  | None => ret ()
  end.

Definition console_error (label : Js.str) (e : Js.Error) : Handler unit :=
  emit (ConsoleError label e).

Definition final_state {A} (r : State * list Effect * Outcome A) : State := r.1.1.
Definition trace {A} (r : State * list Effect * Outcome A) : list Effect := r.1.2.
Definition outcome {A} (r : State * list Effect * Outcome A) : Outcome A := r.2.

(** An event handler is a closure of the render that installed it: it
    reads the state cells of that render ([cl]) and writes through the
    setters. *)
Definition dispatch {A} (h : State → Handler A) (s : State)
    : State * list Effect * Outcome A := h s s.

Definition is_request (x : Effect) : bool :=
  match x with Request _ => true | _ => false end.

(** The network calls of a trace. *)
Definition requests (t : list Effect) : list Call :=
  omap (λ x, match x with Request c => Some c | _ => None end) t.

(* ===================================================================== *)
(** ** The handlers of [ChatApp] *)
(* ===================================================================== *)

(** [new Set(xs)] spread into an array: the distinct elements in the order
    of their first occurrence. *)
Definition Set_add (s : list Js.str) (x : Js.str) : list Js.str :=
  if decide (x ∈ s) then s else s ++ [x].

Definition Set_of (xs : list Js.str) : list Js.str := foldl Set_add [] xs.

(** The one key whose assignment on a plain object stores no entry:
    [acc["__proto__"] = profile] goes to the accessor inherited from
    [Object.prototype] and replaces the prototype of [acc]. *)
Definition proto_key : Js.str := Js.lit "__proto__".

(** [acc[profile.id] = profile] on the accumulator of the [reduce], as the
    own entries of [acc]. *)
Definition assign (acc : gmap Js.str Profile.t) (profile : Profile.t)
    : gmap Js.str Profile.t :=
  if decide (Profile.id profile = proto_key) then acc
  else <[Profile.id profile := profile]> acc.

(** [data.reduce((acc, profile) => { acc[profile.id] = profile; return acc }, {})],
    as the own entries of the object it returns (the ones a spread
    copies). *)
Definition profileMap (data : list Profile.t) : gmap Js.str Profile.t :=
  foldl assign ∅ data.

(** [{ ...prev, ...profileMap }]: the entries of the second object win. *)
Definition spread (prev pm : gmap Js.str Profile.t) : gmap Js.str Profile.t :=
  pm ∪ prev.

Definition fetchProfiles (userIds : list Js.str) (rp : Reply (list Profile.t))
    : Handler unit :=
  try_catch
    (res ← await (SelectProfilesIn (Js.lit "id") userIds) rp;
     throw_if res.2;;
     match res.1 with
     | Some data => modify (setProfiles (λ prev, spread prev (profileMap data)))
     | None => ret ()
     end)
    (λ error, console_error (Js.lit "Error fetching profiles:") error).

Definition fetchMessages
    (rm : Reply (list Message.t)) (rp : Reply (list Profile.t)) : Handler unit :=
  try_catch
    (res ← await (SelectMessages (Js.lit "created_at") true) rm;
     throw_if res.2;;
     match res.1 with
     | Some data =>
         modify (setMessages (λ _, data));;
         let userIds := Set_of (map Message.user_id data) in
         fetchProfiles userIds rp
     | None => ret ()
     end)
    (λ error, console_error (Js.lit "Error fetching messages:") error).

(** The callback of the [postgres_changes] INSERT subscription on the
    [messages] table; [msg] is [payload.new]. *)
Definition onInsert (msg : Message.t) (rp : Reply (list Profile.t)) : Handler unit :=
  modify (setMessages (λ prev, prev ++ [msg]));;
  fetchProfiles [Message.user_id msg] rp.

Definition sendMessage (cl : State) (r : Reply (list Message.t)) : Handler unit :=
  emit PreventDefault;;
  if negb (Js.truthy (Js.trim (newMessage cl))) || negb (bool_decide (is_Some (session cl)))
  then ret ()
  else
    match session cl with
    | None => ret ()
    | Some sess =>
        try_catch
          (res ← await (InsertMessage (newMessage cl)
                           (Session.id (Session.user sess))
                           (Session.email (Session.user sess))) r;
           throw_if res.2;;
           modify (setNewMessage []))
          (λ error, console_error (Js.lit "Error sending message:") error)
    end.

Definition signIn (cl : State) (r : Reply Session.t) : Handler unit :=
  emit PreventDefault;;
  modify (setError None);;
  try_finally
    (try_catch
       (modify (setLoading true);;
        res ← await (AuthSignInWithPassword (email cl) (password cl)) r;
        throw_if res.2;;
        modify (setEmail []);;
        modify (setPassword []);;
        modify (setView chat))
       (λ error, modify (setError (Some (Js.message error)))))
    (modify (setLoading false)).

Definition signUp (cl : State) (r : Reply Session.t) : Handler unit :=
  emit PreventDefault;;
  modify (setError None);;
  try_finally
    (try_catch
       (modify (setLoading true);;
        res ← await (AuthSignUp (email cl) (password cl)) r;
        throw_if res.2;;
        modify (setEmail []);;
        modify (setPassword []);;
        modify (setError (Some (Js.lit "Check your email for the confirmation link."))))
       (λ error, modify (setError (Some (Js.message error)))))
    (modify (setLoading false)).

Definition signOut (r : Reply unit) : Handler unit :=
  try_finally
    (try_catch
       (modify (setLoading true);;
        await AuthSignOut r;;
        modify (setView login);;
        modify (setMenuOpen false))
       (λ error, console_error (Js.lit "Error signing out:") error))
    (modify (setLoading false)).

(** The continuation of [supabase.auth.getSession()] in the mount effect. *)
Definition onGetSession (sess : option Session.t)
    (rm : Reply (list Message.t)) (rp : Reply (list Profile.t)) : Handler unit :=
  modify (setSession sess);;
  match sess with Some _ => fetchMessages rm rp | None => ret () end;;
  modify (setLoading false).

(** The listener given to [supabase.auth.onAuthStateChange]. *)
Definition onAuthStateChange (sess : option Session.t)
    (rm : Reply (list Message.t)) (rp : Reply (list Profile.t)) : Handler unit :=
  modify (setSession sess);;
  match sess with Some _ => fetchMessages rm rp | None => ret () end.

(* ===================================================================== *)
(** ** Rendering *)
(* ===================================================================== *)

(** An [<input>] with the attributes the source gives it. *)
Record Input := {
  type : Js.str;
  value : Js.str;
  required : bool;
  minLength : option nat
}.

(** The login and signup cards: the banner with the [error] cell, the two
    inputs and the submit button. *)
Record AuthForm := {
  banner : option Js.str;
  email_input : Input;
  password_input : Input;
  submit_disabled : bool
}.

Inductive Avatar :=
| Image (src : Js.str)
| Initials (of_email : Js.str).

Record Bubble := {
  key : Z;
  isSelf : bool;
  avatar : Avatar;
  text : Js.str
}.

Record ChatPanel := {
  menu : bool;
  bubbles : list Bubble;
  draft : Js.str;
  send_disabled : bool
}.

Inductive Screen :=
| LoadingScreen
| LoginScreen (f : AuthForm)
| SignupScreen (f : AuthForm)
| ChatScreen (c : ChatPanel)
| Null.

(** [{error && <div ...>{error}</div>}] *)
Definition error_banner (st : State) : option Js.str :=
  match error st with
  | Some e => if Js.truthy e then Some e else None
  | None => None
  end.

Definition renderLogin (st : State) : Screen :=
  LoginScreen {|
    banner := error_banner st;
    email_input := {| type := Js.lit "email"; value := email st;
                      required := true; minLength := None |};
    password_input := {| type := Js.lit "password"; value := password st;
                         required := true; minLength := None |};
    submit_disabled := loading st |}.

Definition renderSignup (st : State) : Screen :=
  SignupScreen {|
    banner := error_banner st;
    email_input := {| type := Js.lit "email"; value := email st;
                      required := true; minLength := None |};
    password_input := {| type := Js.lit "password"; value := password st;
                         required := true; minLength := Some 6%nat |};
    submit_disabled := loading st |}.

Definition renderBubble (st : State) (sess : Session.t) (msg : Message.t) : Bubble :=
  let profile := profiles st !! Message.user_id msg in
  {| key := Message.id msg;
     isSelf := bool_decide (Session.id (Session.user sess) = Message.user_id msg);
     avatar := match profile ≫= Profile.avatar_url with
               | Some url => if Js.truthy url then Image url
                             else Initials (Message.user_email msg)
               | None => Initials (Message.user_email msg)
               end;
     text := Message.content msg |}.

Definition renderChat (st : State) : Screen :=
  match session st with
  | None => Null
  | Some sess =>
      ChatScreen {|
        menu := menuOpen st;
        bubbles := map (renderBubble st sess) (messages st);
        draft := newMessage st;
        send_disabled := negb (Js.truthy (Js.trim (newMessage st))) |}
  end.

(** One pass of the component function: the screen it returns and the
    state update it schedules while rendering, if any. *)
Definition ChatApp (st : State) : option State * Screen :=
  if loading st && negb (bool_decide (is_Some (session st))) then (None, LoadingScreen)
  else
    let scheduled :=
      if bool_decide (is_Some (session st)) && negb (View_eqb (view st) chat)
      then Some (setView chat st) else None in
    (scheduled,
     match view st with
     | signup => renderSignup st
     | chat => renderChat st
     | login => renderLogin st
     end).

(** React gives up after this many consecutive render-phase updates. *)
Definition RE_RENDER_LIMIT : nat := 25.

(** A state update scheduled during a render pass makes React discard
    the output of that pass and run the component again at once with the
    updated state; the screen that is committed is the one of the first
    pass that schedules nothing. *)
Fixpoint render (fuel : nat) (st : State) : option (State * Screen) :=
  match fuel with
  | O => None
  | S fuel' =>
      match ChatApp st with
      | (Some st', _) => render fuel' st'
      | (None, screen) => Some (st, screen)
      end
  end.

(** Constraint validation of the browser on an input: [required] rejects
    the empty value; [minLength] rejects a non-empty value that is shorter,
    but only when the value of the element was last changed by a user
    edit ([edited]) and not by a script, as when React writes the value of
    a newly mounted input.  Lengths are in UTF-16 code units.  (The syntax
    check of [type="email"] is left out; it only rejects more.) *)
Definition input_valid (edited : bool) (i : Input) : bool :=
  (negb (required i) || Js.truthy (value i))
  && match minLength i with
     | Some n =>
         negb edited || negb (Js.truthy (value i))
         || (n <=? length (value i))%nat
     | None => true
     end.

(** [edited] is the flag of the password input; the email input has no
    [minLength], so its own flag plays no part. *)
Definition form_valid (edited : bool) (f : AuthForm) : bool :=
  input_valid true (email_input f) && input_valid edited (password_input f).

(** Submitting the form on the screen: the browser fires [onSubmit] only
    when the inputs validate.  The login form has [onSubmit={signIn}], the
    signup form [onSubmit={signUp}]. *)
Definition submitAuthForm (edited : bool) (cl : State) (r : Reply Session.t)
    : Handler unit :=
  match render RE_RENDER_LIMIT cl with
  | Some (_, LoginScreen f) => if form_valid edited f then signIn cl r else mret ()
  | Some (_, SignupScreen f) => if form_valid edited f then signUp cl r else mret ()
  | _ => mret ()
  end.

(* ===================================================================== *)
(** ** The feed as a sequence of operations *)
(* ===================================================================== *)

(** What reaches the feed: the settlement of an initial load, or a message
    delivered by the live subscription.  Each comes with the settlement of
    the profile query it starts. *)
Inductive FeedOp :=
| Load (rm : Reply (list Message.t)) (rp : Reply (list Profile.t))
| Live (msg : Message.t) (rp : Reply (list Profile.t)).

Definition feed_step (st : State) (op : FeedOp) : State :=
  match op with
  | Load rm rp => final_state (fetchMessages rm rp st)
  | Live msg rp => final_state (onInsert msg rp st)
  end.

Definition run_feed (st : State) (ops : list FeedOp) : State :=
  foldl feed_step st ops.

(** A load that succeeds with [data]. *)
Definition loaded (data : list Message.t) : Reply (list Message.t) :=
  Resolved (Some data) None.

(** The ids on display, in order: the React keys of the bubbles. *)
Definition displayed_ids (st : State) : list Z := map Message.id (messages st).

(* ===================================================================== *)
(** ** The component under React: effects, commits, events *)
(* ===================================================================== *)

(** The mounted component: its state cells, the realtime channels that are
    subscribed on the backend (each named by the client that opened it),
    the cleanup left by the last run of the subscription effect (it removes
    that channel) and the dependencies [[session, supabase]] of that run.
    [createClient] runs in the component body, on every pass; the effect
    of a commit sees the client of the pass that is committed, which no
    earlier commit has seen.  [clients] numbers the clients of the
    committed passes. *)
Record Runtime := {
  cells : State;
  mounted : bool;
  clients : nat;
  channels : list nat;
  cleanup : option nat;
  deps : option (option Session.t * nat)
}.

Definition with_cells (st : State) (rt : Runtime) : Runtime :=
  {| cells := st; mounted := mounted rt; clients := clients rt;
     channels := channels rt; cleanup := cleanup rt; deps := deps rt |}.

(** [supabase.removeChannel(messagesSubscription)] *)
Definition removeChannel (ch : nat) (chs : list nat) : list nat :=
  filter (λ c, c ≠ ch) chs.

(** The body of the subscription effect: nothing without a session;
    otherwise one channel is subscribed and the cleanup removing it is
    returned. *)
Definition subscription_effect
    (sess : option Session.t) (supabase : nat) (chs : list nat)
    : list nat * option nat :=
  match sess with
  | None => (chs, None)
  | Some _ => (chs ++ [supabase], Some supabase)
  end.

Definition run_cleanup (rt : Runtime) : list nat :=
  match cleanup rt with
  | Some ch => removeChannel ch (channels rt)
  | None => channels rt
  end.

(** Unmounting runs the cleanup of the effect. *)
Definition unmount (rt : Runtime) : Runtime :=
  {| cells := cells rt; mounted := false; clients := clients rt;
     channels := run_cleanup rt; cleanup := None; deps := deps rt |}.

Inductive Event :=
| GotSession (sess : option Session.t)
    (rm : Reply (list Message.t)) (rp : Reply (list Profile.t))
| AuthStateChange (sess : option Session.t)
    (rm : Reply (list Message.t)) (rp : Reply (list Profile.t))
| SubmitAuthForm (edited : bool) (r : Reply Session.t)
| ClickSignOut (r : Reply unit)
| SubmitMessage (r : Reply (list Message.t))
| Inserted (msg : Message.t) (rp : Reply (list Profile.t))
| TypeEmail (v : Js.str)
| TypePassword (v : Js.str)
| TypeMessage (v : Js.str)
| ToggleMenu
| SwitchView (v : View)
| Unmount.

(** The state cells after the handlers of an event have run.  An insert is
    delivered once on every subscribed channel. *)
Definition handle (rt : Runtime) (ev : Event) : State :=
  let st := cells rt in
  match ev with
  | GotSession sess rm rp => final_state (onGetSession sess rm rp st)
  | AuthStateChange sess rm rp => final_state (onAuthStateChange sess rm rp st)
  | SubmitAuthForm edited r =>
      final_state (dispatch (λ cl, submitAuthForm edited cl r) st)
  | ClickSignOut r => final_state (signOut r st)
  | SubmitMessage r => final_state (dispatch (λ cl, sendMessage cl r) st)
  | Inserted msg rp =>
      foldl (λ s _, final_state (onInsert msg rp s)) st (channels rt)
  | TypeEmail v => setEmail v st
  | TypePassword v => setPassword v st
  | TypeMessage v => setNewMessage v st
  | ToggleMenu => setMenuOpen (negb (menuOpen st)) st
  | SwitchView v => setView v (setError None st)
  | Unmount => st
  end.

Section React.

(** React compares the dependencies of an effect with [Object.is]: on
    the session that is a comparison of references, which the state
    cells do not record.  It is left open here. *)
Variable same_session : option Session.t → option Session.t → bool.

(** Committing a render: when the dependencies differ from those of the
    last run (or there was none), the cleanup of the last run is called
    and the effect runs again. *)
Definition commit (rt : Runtime) : Runtime :=
  let supabase := clients rt in
  let sess := session (cells rt) in
  let changed :=
    match deps rt with
    | None => true
    | Some (s0, c0) => negb (same_session s0 sess && (c0 =? supabase)%nat)
    end in
  if changed then
    let '(chs, cu) := subscription_effect sess supabase (run_cleanup rt) in
    {| cells := cells rt; mounted := mounted rt; clients := S (clients rt);
       channels := chs; cleanup := cu; deps := Some (sess, supabase) |}
  else
    {| cells := cells rt; mounted := mounted rt; clients := S (clients rt);
       channels := channels rt; cleanup := cleanup rt; deps := deps rt |}.

(** Render until no update is pending, then commit.  Running into the
    re-render limit is an error thrown out of the component, on which
    React unmounts it. *)
Definition rerender (rt : Runtime) : Runtime :=
  match render RE_RENDER_LIMIT (cells rt) with
  | Some (st, _) => commit (with_cells st rt)
  | None => unmount rt
  end.

Definition mount : Runtime :=
  rerender {| cells := initial; mounted := true; clients := 0;
              channels := []; cleanup := None; deps := None |}.

(** One event: its handlers run, then the component is rendered and
    committed.  React skips the commit when the handlers changed no cell;
    the commit made here in that case re-creates the channel and changes
    nothing else, so the runs of [step] include those of the component. *)
Definition step (rt : Runtime) (ev : Event) : Runtime :=
  if mounted rt then
    match ev with
    | Unmount => unmount rt
    | _ => rerender (with_cells (handle rt ev) rt)
    end
  else rt.

Definition run (evs : list Event) : Runtime := foldl step mount evs.

End React.

(** The controller holds a session and is mounted. *)
Definition session_active (rt : Runtime) : bool :=
  mounted rt && bool_decide (is_Some (session (cells rt))).

(* ===================================================================== *)
(** ** Sample data *)
(* ===================================================================== *)

Module Sample.

Definition u1 : Js.str := Js.lit "u1".
Definition u2 : Js.str := Js.lit "u2".

Definition alice : Session.t :=
  {| Session.access_token := Js.lit "token-a";
     Session.user := {| Session.id := u1; Session.email := Some (Js.lit "a@x.com") |} |}.

Definition m1 : Message.t :=
  {| Message.id := 1; Message.created_at := Js.lit "2025-04-21T10:00:00Z";
     Message.content := Js.lit "hello"; Message.user_id := u1;
     Message.user_email := Js.lit "a@x.com"; Message.profile_url := None |}.

Definition m2 : Message.t :=
  {| Message.id := 2; Message.created_at := Js.lit "2025-04-21T10:01:00Z";
     Message.content := Js.lit "hi"; Message.user_id := u2;
     Message.user_email := Js.lit "b@x.com"; Message.profile_url := None |}.

Definition p1 : Profile.t :=
  {| Profile.id := u1; Profile.username := Js.lit "alice";
     Profile.avatar_url := Some (Js.lit "https://x.com/a.png");
     Profile.updated_at := None |}.

(** The profile query finds nothing. *)
Definition no_profiles : Reply (list Profile.t) := Resolved (Some []) None.

(** A backend call that succeeds without data. *)
Definition ok {A} : Reply A := Resolved None None.

Definition network_down : Js.Error := {| Js.message := Js.lit "Failed to fetch" |}.

(** Signed in as [alice], chatting, with [m1] on display and the profile
    of its sender cached. *)
Definition chatting : State :=
  {| session := Some alice; messages := [m1]; newMessage := [];
     loading := false; email := []; password := []; view := chat;
     error := None; menuOpen := true; profiles := {[ u1 := p1 ]} |}.

(** On the signup card with the form filled in. *)
Definition signing_up (pw : String.string) : State :=
  {| session := None; messages := []; newMessage := []; loading := false;
     email := Js.lit "a@x.com"; password := Js.lit pw; view := signup;
     error := None; menuOpen := false; profiles := ∅ |}.

End Sample.

(** The informational text of a successful registration. *)
Definition check_email : Js.str :=
  Js.lit "Check your email for the confirmation link.".

(** The live deliveries of a run, each with the settlement of its profile
    query. *)
Definition deliveries (ds : list (Message.t * Reply (list Profile.t))) : list FeedOp :=
  map (λ d, Live d.1 d.2) ds.

(** What the runtime keeps true between events: the subscribed channels
    are exactly the one its pending cleanup removes, the client of the
    last effect run is older than the next one, and a cleanup is pending
    exactly while the component is mounted with a session. *)
Definition tracked (rt : Runtime) : Prop :=
  channels rt = match cleanup rt with Some ch => [ch] | None => [] end
  ∧ ∀ s c, deps rt = Some (s, c) → (c < clients rt)%nat.

Definition settled (rt : Runtime) : Prop :=
  tracked rt
  ∧ bool_decide (is_Some (cleanup rt)) = session_active rt.

(** The error of a settlement that makes the awaiting handler throw:
    the [error] of the reply object when it is set, or the rejection. *)
Definition Reply_error {A} (r : Reply A) : option Js.Error :=
  match r with
  | Resolved _ error => error
  | Rejects e => Some e
  end.

(** The request of the initial load. *)
Definition load_request : Call := SelectMessages (Js.lit "created_at") true.

(** The card of a screen, when it is the login or the signup card. *)
Definition auth_form (screen : Screen) : option AuthForm :=
  match screen with
  | LoginScreen f | SignupScreen f => Some f
  | _ => None
  end.

(* ===================================================================== *)
(** ** The mount effect and the password input in the browser *)
(* ===================================================================== *)

(** How the promise of [supabase.auth.getSession()] settles. *)
Inductive Settled (A : Type) :=
| Fulfilled (a : A)
| Failed (e : Js.Error).
Arguments Fulfilled {A} a.
Arguments Failed {A} e.

(** [supabase.auth.getSession().then(...)] in the mount effect: the one
    callback runs on fulfilment; there is no rejection handler, so on a
    rejection nothing of the component runs. *)
Definition afterGetSession (s : Settled (option Session.t))
    (rm : Reply (list Message.t)) (rp : Reply (list Profile.t)) : Handler unit :=
  match s with
  | Fulfilled sess => onGetSession sess rm rp
  | Failed _ => mret ()
  end.

(** Whether a submit of the card on screen gets to its handler. *)
Definition auth_submit_runs (edited : bool) (st : State) : bool :=
  match render RE_RENDER_LIMIT st with
  | Some (_, LoginScreen f) | Some (_, SignupScreen f) => form_valid edited f
  | _ => false
  end.

(** The cells a handler has written when it suspends at its [await], for
    the handlers that write before awaiting: [signIn] and [signUp] have
    called [setError(null)] and [setLoading(true)], [signOut] has called
    [setLoading(true)].  React commits this state while the call is in
    flight. *)
Definition in_flight (st : State) (ev : Event) : option State :=
  match ev with
  | SubmitAuthForm edited _ =>
      if auth_submit_runs edited st
      then Some (setLoading true (setError None st)) else None
  | ClickSignOut _ => Some (setLoading true st)
  | _ => None
  end.

(** Whether the committed screen of these cells has the password input. *)
Definition password_on_screen (st : State) : bool :=
  match render RE_RENDER_LIMIT st with
  | Some (_, screen) =>
      match auth_form screen with Some _ => true | None => false end
  | None => false
  end.

(** The component in the browser: the runtime, and whether the value of
    the password input was last changed by a user edit.  The login and
    signup cards have the same element structure, so React keeps the input
    element when the card is switched; any other screen unmounts it, and
    a card mounted afterwards has a new element whose value React
    writes. *)
Record Page := {
  app : Runtime;
  password_edited : bool
}.

Section Browser.

Variable same_session : option Session.t → option Session.t → bool.

Definition page_mount : Page :=
  {| app := mount same_session; password_edited := false |}.

(** One event in the browser.  A submit is validated with the flag the
    browser holds.  The flag survives the event when the input element
    does (the card is on screen before, at the await of the handler if it
    suspends, and after) and React did not write another value into it;
    typing into the input sets it. *)
Definition page_step (pg : Page) (ev : Event) : Page :=
  let st := cells (app pg) in
  let ev' := match ev with
             | SubmitAuthForm _ r => SubmitAuthForm (password_edited pg) r
             | _ => ev
             end in
  let rt' := step same_session (app pg) ev' in
  let kept :=
    password_on_screen st
    && match in_flight st ev' with
       | Some mid => password_on_screen mid
       | None => true
       end
    && password_on_screen (cells rt') in
  {| app := rt';
     password_edited :=
       kept && match ev with
               | TypePassword _ => true
               | _ => password_edited pg
                      && bool_decide (password (cells rt') = password st)
               end |}.

Definition page_run (evs : list Event) : Page := foldl page_step page_mount evs.

(** The submit of the card on the page, with the reply [r]. *)
Definition page_submit (pg : Page) (r : Reply Session.t)
    : State * list Effect * Outcome unit :=
  dispatch (λ cl, submitAuthForm (password_edited pg) cl r) (cells (app pg)).

End Browser.

Module Scenario.

(** A record whose id is the reserved key. *)
Definition p_proto : Profile.t :=
  {| Profile.id := proto_key; Profile.username := Js.lit "eve";
     Profile.avatar_url := Some (Js.lit "https://x.com/e.png");
     Profile.updated_at := None |}.

(** A newer record of [Sample.u1], and a record of [Sample.u2]. *)
Definition p1_new : Profile.t :=
  {| Profile.id := Sample.u1; Profile.username := Js.lit "alice";
     Profile.avatar_url := Some (Js.lit "https://x.com/a2.png");
     Profile.updated_at := Some (Js.lit "2025-04-22T09:00:00Z") |}.

Definition p2 : Profile.t :=
  {| Profile.id := Sample.u2; Profile.username := Js.lit "bob";
     Profile.avatar_url := Some (Js.lit "https://x.com/b.png");
     Profile.updated_at := None |}.

Definition invalid_credentials : Js.Error :=
  {| Js.message := Js.lit "Invalid login credentials" |}.

(** No stored session; the user types an email and a five-character
    password into the login card and submits; the sign-in is refused; the
    user follows the link to the signup card. *)
Definition refused_then_signup : list Event :=
  [GotSession None Sample.ok Sample.ok;
   TypeEmail (Js.lit "a@x.com");
   TypePassword (Js.lit "abcde");
   SubmitAuthForm true (Resolved None (Some invalid_credentials));
   SwitchView signup].

(** The same input typed directly into the signup card. *)
Definition typed_on_signup : list Event :=
  [GotSession None Sample.ok Sample.ok;
   SwitchView signup;
   TypeEmail (Js.lit "a@x.com");
   TypePassword (Js.lit "abcde")].

End Scenario.

(* ===================================================================== *)
(** ** Strings: [trim] and blank strings *)
(* ===================================================================== *)

Lemma trimStart_nil_blank (s : Js.str) :
  Js.trimStart s = [] ↔ Js.blank s = true.
Proof.
  induction s as [|c s IH]; simpl; [done|].
  destruct (Js.is_white_space c); simpl; [exact IH|].
  split; discriminate.
Qed.

Lemma trimStart_head (s t : Js.str) (c : N) :
  Js.trimStart s = c :: t → Js.is_white_space c = false.
Proof.
  induction s as [|d s IH]; simpl; [discriminate|].
  destruct (Js.is_white_space d) eqn:E; [exact IH|].
  intros [= -> _]. exact E.
Qed.

Lemma blank_app (s t : Js.str) :
  Js.blank (s ++ t) = Js.blank s && Js.blank t.
Proof. apply forallb_app. Qed.

Lemma blank_rev (s : Js.str) : Js.blank (rev s) = Js.blank s.
Proof.
  induction s as [|c s IH]; simpl; [done|].
  rewrite blank_app, IH. simpl.
  destruct (Js.is_white_space c), (Js.blank s); reflexivity.
Qed.

Lemma rev_nil_inv {A} (l : list A) : rev l = [] → l = [].
Proof.
  destruct l as [|x l]; simpl; [done|].
  intros H. apply app_eq_nil in H as [_ H]. discriminate.
Qed.

(** [!s.trim()] holds exactly of the strings that are empty or made of
    white space only. *)
Lemma trim_nil_blank (s : Js.str) : Js.trim s = [] ↔ Js.blank s = true.
Proof.
  unfold Js.trim, Js.trimEnd. split.
  - intros H. apply rev_nil_inv in H.
    apply trimStart_nil_blank in H. rewrite blank_rev in H.
    destruct (Js.trimStart s) as [|c t] eqn:E.
    + by apply trimStart_nil_blank.
    + apply trimStart_head in E. simpl in H. rewrite E in H. discriminate.
  - intros H. apply trimStart_nil_blank in H. rewrite H. reflexivity.
Qed.

Lemma truthy_trim (s : Js.str) : Js.truthy (Js.trim s) = negb (Js.blank s).
Proof.
  destruct (Js.blank s) eqn:E.
  - apply trim_nil_blank in E. rewrite E. reflexivity.
  - destruct (Js.trim s) eqn:T; [|reflexivity].
    apply trim_nil_blank in T. congruence.
Qed.

(* ===================================================================== *)
(** ** Running handlers *)
(* ===================================================================== *)

Ltac run_handler :=
  cbv [dispatch fetchProfiles fetchMessages onInsert sendMessage signIn signUp
       signOut onGetSession onAuthStateChange try_catch try_finally await
       throw_if throw emit modify console_error ret mret mbind
       Handler_ret Handler_bind final_state trace outcome requests
       fst snd];
  simpl.

(* ===================================================================== *)
(** ** Sending *)
(* ===================================================================== *)

(** C3.  [sendMessage] does nothing when the draft is empty or made of
    white space only, or when there is no session: the state is left as it
    is and no request goes out (the only effect is [preventDefault] on the
    submit event).  [cl] is the render the handler closes over, [st] the
    state at the time of the submit. *)
Theorem sendMessage_noop (cl st : State) (r : Reply (list Message.t)) :
  Js.blank (newMessage cl) = true ∨ session cl = None →
  sendMessage cl r st = (st, [PreventDefault], Return ())
  ∧ requests (trace (sendMessage cl r st)) = [].
Proof.
  intros H.
  assert (sendMessage cl r st = (st, [PreventDefault], Return ())) as E.
  { unfold sendMessage. rewrite truthy_trim.
    destruct H as [H|H]; rewrite H; simpl.
    - run_handler. reflexivity.
    - rewrite orb_true_r. run_handler. reflexivity. }
  rewrite E. split; reflexivity.
Qed.

Lemma sendMessage_noop_witness :
  (Js.blank (newMessage (setNewMessage (Js.lit "   ") Sample.chatting)) = true
   ∨ session (setNewMessage (Js.lit "   ") Sample.chatting) = None)
  ∧ sendMessage (setNewMessage (Js.lit "   ") Sample.chatting) Sample.ok
      (setNewMessage (Js.lit "   ") Sample.chatting)
    = (setNewMessage (Js.lit "   ") Sample.chatting, [PreventDefault], Return ()).
Proof.
  split.
  - left. reflexivity.
  - apply (sendMessage_noop _ _ Sample.ok). left. reflexivity.
Defined.

(** With a draft and a session the insert request goes out, and the draft
    is cleared once it is accepted. *)
Example sendMessage_sends :
  let st := setNewMessage (Js.lit "hey") Sample.chatting in
  dispatch (λ cl, sendMessage cl Sample.ok) st
  = (setNewMessage [] st,
     [PreventDefault;
      Request (InsertMessage (Js.lit "hey") Sample.u1 (Some (Js.lit "a@x.com")))],
     Return ()).
Proof. reflexivity. Qed.

(* ===================================================================== *)
(** ** The profile cache *)
(* ===================================================================== *)

Lemma assign_lookup (acc : gmap Js.str Profile.t) (p : Profile.t) (k : Js.str) :
  assign acc p !! k
  = if decide (Profile.id p = k ∧ k ≠ proto_key) then Some p else acc !! k.
Proof.
  unfold assign. destruct (decide (Profile.id p = proto_key)) as [E|E].
  - rewrite decide_False; [done|]. intros [<- N]. done.
  - destruct (decide (Profile.id p = k)) as [<-|N].
    + rewrite decide_True by done. apply lookup_insert_eq.
    + rewrite decide_False by (intros [? _]; done). by apply lookup_insert_ne.
Qed.

Lemma profileMap_fold (data : list Profile.t) (acc : gmap Js.str Profile.t) (k : Js.str) :
  foldl assign acc data !! k
  = if decide (k = proto_key) then acc !! k
    else match last (filter (λ p, Profile.id p = k) data) with
         | Some p => Some p
         | None => acc !! k
         end.
Proof.
  revert acc. induction data as [|p data IH]; intros acc; simpl.
  - by destruct (decide (k = proto_key)).
  - rewrite IH, assign_lookup. destruct (decide (k = proto_key)) as [K|K].
    + rewrite decide_False; [done|]. intros [_ N]. done.
    + rewrite filter_cons. destruct (decide (Profile.id p = k)) as [E|E].
      * rewrite decide_True by done. rewrite last_cons.
        by destruct (last (filter (λ p0, Profile.id p0 = k) data)).
      * rewrite decide_False by (intros [? _]; done). reflexivity.
Qed.

(** The own entries of the object built by the [reduce]: for every id but
    the reserved key, the last record of [data] carrying it; none at the
    reserved key. *)
Lemma profileMap_lookup (data : list Profile.t) (k : Js.str) :
  profileMap data !! k
  = if decide (k = proto_key) then None
    else last (filter (λ p, Profile.id p = k) data).
Proof.
  unfold profileMap. rewrite profileMap_fold, lookup_empty.
  destruct (decide (k = proto_key)); [done|]. by destruct (last _).
Qed.

Lemma spread_lookup (prev pm : gmap Js.str Profile.t) (k : Js.str) :
  spread prev pm !! k
  = match pm !! k with Some p => Some p | None => prev !! k end.
Proof.
  unfold spread. rewrite lookup_union.
  destruct (pm !! k), (prev !! k); reflexivity.
Qed.

Lemma fetchProfiles_merged
    (st : State) (userIds : list Js.str) (data : list Profile.t) (k : Js.str) :
  profiles (final_state (fetchProfiles userIds (Resolved (Some data) None) st)) !! k
  = if decide (k = proto_key) then profiles st !! k
    else match last (filter (λ p, Profile.id p = k) data) with
         | Some p => Some p
         | None => profiles st !! k
         end.
Proof.
  run_handler. rewrite spread_lookup, profileMap_lookup.
  by destruct (decide (k = proto_key)).
Qed.

(** The two halves of the merge. *)
Corollary fetchProfiles_overwrites
    (st : State) (userIds : list Js.str) (data : list Profile.t) (p : Profile.t) :
  NoDup (map Profile.id data) → p ∈ data → Profile.id p ≠ proto_key →
  profiles (final_state (fetchProfiles userIds (Resolved (Some data) None) st))
    !! Profile.id p = Some p.
Proof.
  intros ND Hp K.
  rewrite fetchProfiles_merged, decide_False by exact K. clear K.
  induction data as [|q data IH]; [by apply elem_of_nil in Hp|].
  rewrite filter_cons. simpl in ND. apply NoDup_cons in ND as [Hq ND].
  apply elem_of_cons in Hp as [->|Hp].
  - rewrite decide_True by done. rewrite last_cons.
    destruct (last _) as [r|] eqn:L; [|done].
    apply last_Some_elem_of, list_elem_of_filter in L as [Er Hr].
    exfalso. apply Hq. rewrite <- Er. apply list_elem_of_fmap. eauto.
  - destruct (decide (Profile.id q = Profile.id p)) as [E|E].
    + exfalso. apply Hq. rewrite E. apply list_elem_of_fmap. eauto.
    + by apply IH.
Qed.

Corollary fetchProfiles_frame
    (st : State) (userIds : list Js.str) (data : list Profile.t) (k : Js.str) :
  k ∉ map Profile.id data →
  profiles (final_state (fetchProfiles userIds (Resolved (Some data) None) st)) !! k
  = profiles st !! k.
Proof.
  intros Hk.
  rewrite fetchProfiles_merged. destruct (decide (k = proto_key)); [done|].
  destruct (last _) as [r|] eqn:L; [|done].
  apply last_Some_elem_of, list_elem_of_filter in L as [Er Hr].
  exfalso. apply Hk. rewrite <- Er. apply list_elem_of_fmap. eauto.
Qed.

(** C9, on the code.  A fetched record whose id is ["__proto__"] is not
    merged: whatever the reply holds, the cache is at that key as it was
    before, and starting from the empty cache the record fetched under that
    id is not found under its id afterwards, although the query
    succeeded. *)
Theorem fetchProfiles_drops_proto_record :
  (∀ st userIds data,
     profiles (final_state (fetchProfiles userIds (Resolved (Some data) None) st))
       !! proto_key
     = profiles st !! proto_key)
  ∧ Scenario.p_proto ∈ [Scenario.p_proto; Scenario.p2]
  ∧ profiles (final_state
                (fetchProfiles [proto_key; Sample.u2]
                   (Resolved (Some [Scenario.p_proto; Scenario.p2]) None) initial))
      !! Profile.id Scenario.p_proto = None
  ∧ profiles (final_state
                (fetchProfiles [proto_key; Sample.u2]
                   (Resolved (Some [Scenario.p_proto; Scenario.p2]) None) initial))
      !! Profile.id Scenario.p2 = Some Scenario.p2.
Proof.
  split.
  - intros st userIds data. rewrite fetchProfiles_merged.
    by rewrite decide_True.
  - split; [apply list_elem_of_here|]. split.
    + rewrite fetchProfiles_merged. by rewrite decide_True.
    + rewrite fetchProfiles_merged. reflexivity.
Qed.

(** X27.  What [fetchProfiles] does to the cache, by the settlement of
    its query.  On success with [data], the cache maps every id but the
    reserved key to the last record of [data] carrying that id when there
    is one (whatever was cached before for it) and is as before at every
    other id; at the reserved key it is as before.  When the query reports
    an error or rejects, the state is left as it is and the error goes to
    the console.  (A success without data changes nothing.) *)
Theorem fetchProfiles_merge_law
    (st : State) (userIds : list Js.str) (rp : Reply (list Profile.t)) :
  match rp with
  | Resolved (Some data) None =>
      ∀ k, profiles (final_state (fetchProfiles userIds rp st)) !! k
           = if decide (k = proto_key) then profiles st !! k
             else match last (filter (λ p, Profile.id p = k) data) with
                  | Some p => Some p
                  | None => profiles st !! k
                  end
  | Resolved None None =>
      fetchProfiles userIds rp st
      = (st, [Request (SelectProfilesIn (Js.lit "id") userIds)], Return ())
  | Resolved _ (Some e) | Rejects e =>
      fetchProfiles userIds rp st
      = (st, [Request (SelectProfilesIn (Js.lit "id") userIds);
              ConsoleError (Js.lit "Error fetching profiles:") e], Return ())
  end.
Proof.
  destruct rp as [[data|] [e|]|e]; try reflexivity.
  intros k. apply fetchProfiles_merged.
Qed.

(* ===================================================================== *)
(** ** The initial load *)
(* ===================================================================== *)

Lemma Set_add_elem (s : list Js.str) (x y : Js.str) :
  y ∈ Set_add s x ↔ y ∈ s ∨ y = x.
Proof.
  unfold Set_add. destruct (decide (x ∈ s)) as [Hx|Hx].
  - split; [auto|]. intros [H| ->]; done.
  - rewrite elem_of_app, list_elem_of_singleton. done.
Qed.

Lemma Set_add_NoDup (s : list Js.str) (x : Js.str) :
  NoDup s → NoDup (Set_add s x).
Proof.
  intros ND. unfold Set_add. destruct (decide (x ∈ s)) as [Hx|Hx]; [done|].
  apply NoDup_app. split; [done|]. split.
  - intros y Hy Hy'. apply list_elem_of_singleton in Hy'. by subst.
  - apply NoDup_singleton.
Qed.

Lemma Set_fold_elem (xs s : list Js.str) (y : Js.str) :
  y ∈ foldl Set_add s xs ↔ y ∈ s ∨ y ∈ xs.
Proof.
  revert s. induction xs as [|x xs IH]; intros s; simpl.
  - rewrite elem_of_nil. tauto.
  - rewrite IH, Set_add_elem, elem_of_cons. tauto.
Qed.

Lemma Set_fold_NoDup (xs s : list Js.str) :
  NoDup s → NoDup (foldl Set_add s xs).
Proof.
  revert s. induction xs as [|x xs IH]; intros s ND; simpl; [done|].
  by apply IH, Set_add_NoDup.
Qed.

(** [[...new Set(xs)]] has the elements of [xs], each once. *)
Lemma Set_of_elem (xs : list Js.str) (y : Js.str) : y ∈ Set_of xs ↔ y ∈ xs.
Proof.
  unfold Set_of. rewrite Set_fold_elem, elem_of_nil. tauto.
Qed.

Lemma Set_of_NoDup (xs : list Js.str) : NoDup (Set_of xs).
Proof. apply Set_fold_NoDup, NoDup_nil_2. Qed.

Lemma fetchProfiles_requests
    (st : State) (userIds : list Js.str) (rp : Reply (list Profile.t)) :
  requests (trace (fetchProfiles userIds rp st))
  = [SelectProfilesIn (Js.lit "id") userIds].
Proof. destruct rp as [[data|] [e|]|e]; reflexivity. Qed.

Lemma fetchProfiles_messages
    (st : State) (userIds : list Js.str) (rp : Reply (list Profile.t)) :
  messages (final_state (fetchProfiles userIds rp st)) = messages st.
Proof. destruct rp as [[data|] [e|]|e]; reflexivity. Qed.

Lemma fetchMessages_loaded
    (st : State) (data : list Message.t) (rp : Reply (list Profile.t)) :
  messages (final_state (fetchMessages (loaded data) rp st)) = data
  ∧ requests (trace (fetchMessages (loaded data) rp st))
    = [SelectMessages (Js.lit "created_at") true;
       SelectProfilesIn (Js.lit "id") (Set_of (map Message.user_id data))].
Proof. destruct rp as [[ps|] [e|]|e]; split; reflexivity. Qed.

(** C7.  A load that succeeds with [data] asks for the history ordered by
    [created_at] ascending, puts [data] on display in place of whatever was
    there, and then asks for the profiles of one list of user ids: the
    user ids of [data], each exactly once. *)
Theorem fetchMessages_replaces
    (st : State) (data : list Message.t) (rp : Reply (list Profile.t)) :
  ∃ userIds,
    messages (final_state (fetchMessages (loaded data) rp st)) = data
    ∧ requests (trace (fetchMessages (loaded data) rp st))
      = [SelectMessages (Js.lit "created_at") true;
         SelectProfilesIn (Js.lit "id") userIds]
    ∧ NoDup userIds
    ∧ ∀ u, u ∈ userIds ↔ ∃ msg, msg ∈ data ∧ Message.user_id msg = u.
Proof.
  exists (Set_of (map Message.user_id data)).
  destruct (fetchMessages_loaded st data rp) as [Hm Hr].
  split; [exact Hm|]. split; [exact Hr|]. split; [apply Set_of_NoDup|].
  intros u. rewrite Set_of_elem, list_elem_of_fmap.
  split; intros (msg & H1 & H2); exists msg; done.
Qed.

Example fetchMessages_sample :
  let r := fetchMessages (loaded [Sample.m1; Sample.m2; Sample.m1])
             Sample.no_profiles Sample.chatting in
  messages (final_state r) = [Sample.m1; Sample.m2; Sample.m1]
  ∧ requests (trace r)
    = [SelectMessages (Js.lit "created_at") true;
       SelectProfilesIn (Js.lit "id") [Sample.u1; Sample.u2]].
Proof. split; reflexivity. Qed.

(** A load that fails leaves the feed as it was. *)
Lemma fetchMessages_failed
    (st : State) (d : option (list Message.t)) (e : Js.Error)
    (rp : Reply (list Profile.t)) :
  fetchMessages (Resolved d (Some e)) rp st
  = (st, [Request (SelectMessages (Js.lit "created_at") true);
          ConsoleError (Js.lit "Error fetching messages:") e], Return ()).
Proof. destruct d; reflexivity. Qed.

(* ===================================================================== *)
(** ** Live messages *)
(* ===================================================================== *)

Lemma onInsert_appends (st : State) (msg : Message.t) (rp : Reply (list Profile.t)) :
  messages (final_state (onInsert msg rp st)) = messages st ++ [msg]
  ∧ requests (trace (onInsert msg rp st))
    = [SelectProfilesIn (Js.lit "id") [Message.user_id msg]].
Proof. destruct rp as [[ps|] [e|]|e]; split; reflexivity. Qed.

(** C8, as the code has it.  A delivered message goes to the end of the
    feed whatever is on display, and one profile query for its single user
    id goes out, whatever the cache holds. *)
Theorem onInsert_appends_and_enriches
    (st : State) (msg : Message.t) (rp : Reply (list Profile.t)) :
  messages (final_state (onInsert msg rp st)) = messages st ++ [msg]
  ∧ requests (trace (onInsert msg rp st))
    = [SelectProfilesIn (Js.lit "id") [Message.user_id msg]].
Proof. apply onInsert_appends. Qed.

(** C8, as stated, fails: the sender of [m1] is in the cache, and the
    query for it goes out all the same. *)
Lemma onInsert_queries_cached_sender :
  is_Some (profiles Sample.chatting !! Message.user_id Sample.m1)
  ∧ requests (trace (onInsert Sample.m1 Sample.no_profiles Sample.chatting))
    = [SelectProfilesIn (Js.lit "id") [Sample.u1]]
  ∧ ¬ (is_Some (profiles Sample.chatting !! Message.user_id Sample.m1) →
       requests (trace (onInsert Sample.m1 Sample.no_profiles Sample.chatting)) = []).
Proof.
  assert (is_Some (profiles Sample.chatting !! Message.user_id Sample.m1)) as C.
  { exists Sample.p1. reflexivity. }
  split; [exact C|]. split; [reflexivity|].
  intros H. specialize (H C). discriminate H.
Qed.

(* ===================================================================== *)
(** ** The feed over a run *)
(* ===================================================================== *)

Lemma run_feed_deliveries (st : State) (ds : list (Message.t * Reply (list Profile.t))) :
  messages (run_feed st (deliveries ds)) = messages st ++ map fst ds.
Proof.
  revert st. induction ds as [|[msg rp] ds IH]; intros st; simpl.
  - by rewrite app_nil_r.
  - unfold run_feed in IH. rewrite IH.
    destruct (onInsert_appends st msg rp) as [-> _].
    by rewrite <- app_assoc.
Qed.

(** C1, as the code has it.  After a load that succeeds with [data] and
    any live deliveries, the feed is [data] followed by every delivered
    message in the order of delivery; nothing is dropped.  So the ids on
    display repeat exactly when the loaded history and the deliveries
    together repeat one. *)
Theorem feed_is_load_then_deliveries
    (st : State) (data : list Message.t) (rp : Reply (list Profile.t))
    (ds : list (Message.t * Reply (list Profile.t))) :
  messages (run_feed st (Load (loaded data) rp :: deliveries ds))
  = data ++ map fst ds
  ∧ (NoDup (displayed_ids (run_feed st (Load (loaded data) rp :: deliveries ds)))
     ↔ NoDup (map Message.id (data ++ map fst ds))).
Proof.
  assert (messages (run_feed st (Load (loaded data) rp :: deliveries ds))
          = data ++ map fst ds) as E.
  { change (run_feed st (Load (loaded data) rp :: deliveries ds))
      with (run_feed (feed_step st (Load (loaded data) rp)) (deliveries ds)).
    rewrite run_feed_deliveries. simpl.
    by destruct (fetchMessages_loaded st data rp) as [-> _]. }
  split; [exact E|]. unfold displayed_ids. by rewrite E.
Qed.

(** C1, as stated, fails: a message of the loaded history that the
    subscription delivers again is on display twice. *)
Lemma feed_redelivery_repeats_id :
  displayed_ids (run_feed initial [Load (loaded [Sample.m1]) Sample.no_profiles;
                                   Live Sample.m1 Sample.no_profiles])
  = [1%Z; 1%Z]
  ∧ ¬ NoDup (displayed_ids
               (run_feed initial [Load (loaded [Sample.m1]) Sample.no_profiles;
                                  Live Sample.m1 Sample.no_profiles])).
Proof.
  split; [reflexivity|].
  change (¬ NoDup [1%Z; 1%Z]).
  intros H. apply NoDup_cons in H as [H _]. apply H. apply list_elem_of_here.
Qed.

(* ===================================================================== *)
(** ** The render pass *)
(* ===================================================================== *)

Lemma setView_same (st : State) : view st = chat → setView chat st = st.
Proof. destruct st; simpl; by intros ->. Qed.

(** With a session the render settles on the chat screen, after at most
    one discarded pass. *)
Lemma render_session (st : State) (sess : Session.t) :
  session st = Some sess →
  render RE_RENDER_LIMIT st = Some (setView chat st, renderChat (setView chat st)).
Proof.
  intros S. unfold RE_RENDER_LIMIT.
  destruct (view st) eqn:V.
  - rewrite setView_same by done.
    simpl. unfold ChatApp. rewrite S, V. simpl.
    by rewrite andb_false_r.
  - change (render 25 st) with
      (match ChatApp st with
       | (Some st', _) => render 24 st'
       | (None, screen) => Some (st, screen)
       end).
    unfold ChatApp at 1. rewrite S, V. simpl. rewrite andb_false_r.
    simpl. unfold ChatApp. simpl. rewrite S. simpl. by rewrite andb_false_r.
  - change (render 25 st) with
      (match ChatApp st with
       | (Some st', _) => render 24 st'
       | (None, screen) => Some (st, screen)
       end).
    unfold ChatApp at 1. rewrite S, V. simpl. rewrite andb_false_r.
    simpl. unfold ChatApp. simpl. rewrite S. simpl. by rewrite andb_false_r.
Qed.

(** Without a session the render is a single pass: the loading screen
    while loading, otherwise the screen of the view flag. *)
Lemma render_no_session (st : State) :
  session st = None →
  render RE_RENDER_LIMIT st
  = Some (st, if loading st then LoadingScreen
              else match view st with
                   | signup => renderSignup st
                   | chat => Null
                   | login => renderLogin st
                   end).
Proof.
  intros S. unfold RE_RENDER_LIMIT. simpl. unfold ChatApp, renderChat.
  rewrite S. simpl. rewrite andb_true_r. by destruct (loading st).
Qed.

Lemma render_total (st : State) : is_Some (render RE_RENDER_LIMIT st).
Proof.
  destruct (session st) as [sess|] eqn:S.
  - erewrite render_session by done. eauto.
  - rewrite render_no_session by done. eauto.
Qed.

(** C10.  With a session, whatever the view flag and the loading flag
    are, the screen that is committed is the chat screen, and the view flag
    has been set to [chat] by the render: the login and signup screens are
    never committed. *)
Theorem session_forces_chat (st : State) (sess : Session.t) :
  session st = Some sess →
  ∃ st' panel,
    render RE_RENDER_LIMIT st = Some (st', ChatScreen panel)
    ∧ st' = setView chat st
    ∧ view st' = chat.
Proof.
  intros S. rewrite (render_session st sess S).
  unfold renderChat. simpl. rewrite S. eauto.
Qed.

Lemma session_forces_chat_witness :
  session (setView login Sample.chatting) = Some Sample.alice
  ∧ ∃ st' panel,
      render RE_RENDER_LIMIT (setView login Sample.chatting)
      = Some (st', ChatScreen panel)
      ∧ st' = setView chat (setView login Sample.chatting)
      ∧ view st' = chat.
Proof.
  split; [reflexivity|].
  apply (session_forces_chat (setView login Sample.chatting) Sample.alice).
  reflexivity.
Defined.

(** The pass that is discarded did return the login card. *)
Example first_pass_is_discarded :
  ChatApp (setView login Sample.chatting)
  = (Some (setView chat (setView login Sample.chatting)),
     renderLogin (setView login Sample.chatting)).
Proof. reflexivity. Qed.

(* ===================================================================== *)
(** ** Signing up *)
(* ===================================================================== *)

Lemma signUp_accepted (cl st : State) (d : option Session.t) :
  signUp cl (Resolved d None) st
  = (setLoading false
       (setError (Some check_email)
          (setPassword [] (setEmail [] (setLoading true (setError None st))))),
     [PreventDefault; Request (AuthSignUp (email cl) (password cl))],
     Return ()).
Proof. reflexivity. Qed.

Lemma signUp_requests (cl st : State) (r : Reply Session.t) :
  requests (trace (signUp cl r st)) = [AuthSignUp (email cl) (password cl)].
Proof. destruct r as [d [e|]|e]; reflexivity. Qed.

Lemma signIn_requests (cl st : State) (r : Reply Session.t) :
  requests (trace (signIn cl r st))
  = [AuthSignInWithPassword (email cl) (password cl)].
Proof. destruct r as [d [e|]|e]; reflexivity. Qed.

Lemma elem_of_requests (t : list Effect) (c : Call) :
  Request c ∈ t ↔ c ∈ requests t.
Proof.
  unfold requests. rewrite list_elem_of_omap. split.
  - intros H. exists (Request c). done.
  - intros (x & Hx & E). destruct x; try discriminate.
    by injection E as ->.
Qed.

(** C5, as the code has it.  When the registration is accepted, the text
    "Check your email for the confirmation link." is stored in the [error]
    cell, the one cell for messages to the user, and shown by the banner
    of the card; the session and the view flag are as before, so without a
    session the card of the view flag (signup or login) stays on screen. *)
Theorem signUp_accepted_shows_notice (cl st : State) (d : option Session.t) :
  session st = None → view st ≠ chat →
  let st' := final_state (signUp cl (Resolved d None) st) in
  error st' = Some check_email
  ∧ session st' = None ∧ view st' = view st ∧ loading st' = false
  ∧ email st' = [] ∧ password st' = []
  ∧ ∃ f, banner f = Some check_email
         ∧ render RE_RENDER_LIMIT st'
           = Some (st', match view st with
                        | signup => SignupScreen f
                        | _ => LoginScreen f
                        end).
Proof.
  intros S V st'. subst st'. rewrite signUp_accepted.
  unfold final_state. cbn [fst].
  split; [reflexivity|]. split; [exact S|]. do 4 (split; [reflexivity|]).
  rewrite render_no_session by exact S.
  cbn [loading view setLoading setError setPassword setEmail].
  destruct (view st); [done| |]; eexists; (split; [|reflexivity]); reflexivity.
Qed.

Lemma signUp_accepted_shows_notice_witness :
  session (Sample.signing_up "abcdef") = None
  ∧ view (Sample.signing_up "abcdef") ≠ chat
  ∧ error (final_state (dispatch (λ cl, signUp cl Sample.ok) (Sample.signing_up "abcdef")))
    = Some check_email.
Proof.
  assert (view (Sample.signing_up "abcdef") ≠ chat) as V by discriminate.
  split; [reflexivity|]. split; [exact V|].
  exact (proj1 (signUp_accepted_shows_notice
                  (Sample.signing_up "abcdef") (Sample.signing_up "abcdef") None
                  eq_refl V)).
Defined.

(** C5, as stated, fails: signing up with [("a@x.com", "abcdef")], the
    notice is in the [error] cell and on the banner that shows errors. *)
Lemma signUp_notice_is_on_the_error_path :
  let st' := final_state (dispatch (λ cl, signUp cl Sample.ok)
                            (Sample.signing_up "abcdef")) in
  error st' ≠ None
  ∧ error_banner st' = Some check_email
  ∧ ∃ f, render RE_RENDER_LIMIT st' = Some (st', SignupScreen f)
         ∧ banner f = Some check_email.
Proof.
  split; [discriminate|]. split; [reflexivity|].
  eexists. split; reflexivity.
Qed.

(** A rejected registration goes through the same cell. *)
Example signUp_refused_same_cell :
  error (final_state (dispatch (λ cl, signUp cl (Rejects Sample.network_down))
                        (Sample.signing_up "abcdef")))
  = Some (Js.lit "Failed to fetch").
Proof. reflexivity. Qed.

(** The handler itself does not look at the password. *)
Example signUp_handler_has_no_check :
  requests (trace (dispatch (λ cl, signUp cl Sample.ok) (Sample.signing_up "abc")))
  = [AuthSignUp (Js.lit "a@x.com") (Js.lit "abc")].
Proof. reflexivity. Qed.

(** X28.  A registration request that goes out on a submit of the signup
    form while the value of the password input was last changed by a user
    edit carries a password of at least 6 code units; a shorter one typed
    into the card is held back by the browser. *)
Theorem typed_password_min_length
    (cl st : State) (r : Reply Session.t) (e p : Js.str) :
  Request (AuthSignUp e p) ∈ trace (submitAuthForm true cl r st) →
  (6 ≤ length p)%nat.
Proof.
  unfold submitAuthForm.
  destruct (session cl) as [sess|] eqn:S.
  - rewrite (render_session cl sess S). unfold renderChat. simpl. rewrite S.
    intros H. by apply elem_of_nil in H.
  - rewrite render_no_session by done.
    destruct (loading cl); [intros H; by apply elem_of_nil in H|].
    destruct (view cl).
    + intros H. by apply elem_of_nil in H.
    + unfold renderLogin. destruct (form_valid _ _).
      * rewrite elem_of_requests, signIn_requests.
        intros H. apply list_elem_of_singleton in H. discriminate.
      * intros H. by apply elem_of_nil in H.
    + unfold renderSignup. destruct (form_valid _ _) eqn:F.
      * rewrite elem_of_requests, signUp_requests.
        intros H. apply list_elem_of_singleton in H. injection H as -> ->.
        unfold form_valid, input_valid in F.
        cbn [email_input password_input required value minLength negb orb] in F.
        apply andb_prop in F as [_ F]. apply andb_prop in F as [F1 F2].
        rewrite F1 in F2. by apply Nat.leb_le in F2.
      * intros H. by apply elem_of_nil in H.
Qed.

Lemma typed_password_min_length_witness :
  Request (AuthSignUp (Js.lit "a@x.com") (Js.lit "abcdef"))
    ∈ trace (submitAuthForm true (Sample.signing_up "abcdef") Sample.ok
               (Sample.signing_up "abcdef"))
  ∧ (6 ≤ length (Js.lit "abcdef"))%nat.
Proof.
  assert (Request (AuthSignUp (Js.lit "a@x.com") (Js.lit "abcdef"))
            ∈ trace (submitAuthForm true (Sample.signing_up "abcdef") Sample.ok
                       (Sample.signing_up "abcdef"))) as H.
  { apply list_elem_of_further, list_elem_of_here. }
  split; [exact H|].
  exact (typed_password_min_length _ _ _ _ _ H).
Defined.

(** A submit with a five-character password that was typed into the
    signup card does not reach the handler. *)
Example signup_form_blocks_typed_short_password :
  submitAuthForm true (Sample.signing_up "abcde") Sample.ok (Sample.signing_up "abcde")
  = (Sample.signing_up "abcde", [], Return ())
  ∧ password_edited (page_run (λ _ _, false) Scenario.typed_on_signup) = true
  ∧ requests (trace (page_submit (page_run (λ _ _, false) Scenario.typed_on_signup)
                       Sample.ok)) = [].
Proof. repeat split; reflexivity. Qed.

(** C6, on the code.  The user types ["a@x.com"] and the five-character
    password ["abcde"] into the login card and submits; the sign-in is
    refused.  While the call was in flight the loading screen had replaced
    the card, so the password input now on screen is a new element whose
    value React wrote.  On the signup card the browser therefore does not
    apply [minLength] to it: the submit reaches [signUp], which has no
    check of its own, and the registration request carries the
    five-character password. *)
Theorem signup_sends_short_password :
  password_on_screen
    (setLoading true (setError None
       (cells (app (page_run (λ _ _, false)
                      [GotSession None Sample.ok Sample.ok;
                       TypeEmail (Js.lit "a@x.com");
                       TypePassword (Js.lit "abcde")]))))) = false
  ∧ password_edited (page_run (λ _ _, false) Scenario.refused_then_signup) = false
  ∧ view (cells (app (page_run (λ _ _, false) Scenario.refused_then_signup))) = signup
  ∧ password (cells (app (page_run (λ _ _, false) Scenario.refused_then_signup)))
    = Js.lit "abcde"
  ∧ requests (trace (page_submit
                       (page_run (λ _ _, false) Scenario.refused_then_signup)
                       Sample.ok))
    = [AuthSignUp (Js.lit "a@x.com") (Js.lit "abcde")]
  ∧ (length (Js.lit "abcde") < 6)%nat.
Proof.
  split; [reflexivity|]. split; [reflexivity|]. split; [reflexivity|].
  split; [reflexivity|]. split; [reflexivity|]. cbn. lia.
Qed.

(* ===================================================================== *)
(** ** Signing out *)
(* ===================================================================== *)

Lemma signOut_resolved (st : State) (d : option unit) (e : option Js.Error) :
  signOut (Resolved d e) st
  = (setLoading false (setMenuOpen false (setView login (setLoading true st))),
     [Request AuthSignOut], Return ()).
Proof. reflexivity. Qed.

Lemma onAuthStateChange_null
    (st : State) (rm : Reply (list Message.t)) (rp : Reply (list Profile.t)) :
  onAuthStateChange None rm rp st = (setSession None st, [], Return ()).
Proof. reflexivity. Qed.

(** C4, as stated, fails: signing out of a chat with [m1] on display and
    a cached profile, the message and the profile are still there after
    the session has gone. *)
Lemma signOut_leaves_feed_and_cache :
  let s2 := final_state
              (onAuthStateChange None Sample.ok Sample.ok
                 (final_state (signOut Sample.ok Sample.chatting))) in
  session s2 = None
  ∧ messages s2 = [Sample.m1]
  ∧ profiles s2 !! Sample.u1 = Some Sample.p1
  ∧ ¬ (messages s2 = [] ∧ profiles s2 = ∅).
Proof.
  split; [reflexivity|]. split; [reflexivity|]. split; [reflexivity|].
  intros [H _]. discriminate H.
Qed.

(* ===================================================================== *)
(** ** The live subscription *)
(* ===================================================================== *)

Lemma removeChannel_self (ch : nat) : removeChannel ch [ch] = [].
Proof.
  unfold removeChannel. rewrite filter_cons, decide_False by auto.
  reflexivity.
Qed.

Lemma run_cleanup_tracked (rt : Runtime) : tracked rt → run_cleanup rt = [].
Proof.
  intros [H _]. unfold run_cleanup. rewrite H.
  destruct (cleanup rt); [apply removeChannel_self|reflexivity].
Qed.

Lemma with_cells_tracked (st : State) (rt : Runtime) :
  tracked rt → tracked (with_cells st rt).
Proof. intros H. exact H. Qed.

Lemma unmount_settled (rt : Runtime) : tracked rt → settled (unmount rt).
Proof.
  intros T. pose proof (run_cleanup_tracked rt T) as C.
  destruct T as [_ D].
  unfold settled, tracked, session_active, unmount. simpl.
  rewrite C. repeat split. exact D.
Qed.

Section ReactFacts.

Variable same_session : option Session.t → option Session.t → bool.

Lemma commit_settled (rt : Runtime) :
  tracked rt → mounted rt = true → settled (commit same_session rt).
Proof.
  intros T M. pose proof (run_cleanup_tracked rt T) as C.
  destruct T as [_ D]. unfold commit.
  assert (match deps rt with
          | Some (s0, c0) =>
              negb (same_session s0 (session (cells rt)) && (c0 =? clients rt)%nat)
          | None => true
          end = true) as ->.
  { destruct (deps rt) as [[s0 c0]|] eqn:E; [|done].
    specialize (D s0 c0 eq_refl).
    assert ((c0 =? clients rt)%nat = false) as -> by (apply Nat.eqb_neq; lia).
    by rewrite andb_false_r. }
  rewrite C. unfold subscription_effect, settled, tracked, session_active.
  destruct (session (cells rt)) as [sess|] eqn:S; simpl; rewrite S, M.
  - split; [split; [done|]|done].
    intros s c [= _ <-]. lia.
  - split; [split; [done|]|done].
    intros s c [= _ <-]. lia.
Qed.

Lemma rerender_settled (rt : Runtime) :
  tracked rt → mounted rt = true → settled (rerender same_session rt).
Proof.
  intros T M. unfold rerender.
  destruct (render RE_RENDER_LIMIT (cells rt)) as [[st screen]|].
  - apply commit_settled; [by apply with_cells_tracked|exact M].
  - by apply unmount_settled.
Qed.

Lemma step_settled (rt : Runtime) (ev : Event) :
  settled rt → settled (step same_session rt ev).
Proof.
  intros [T A]. unfold step. destruct (mounted rt) eqn:M; [|by split].
  destruct ev; try (apply rerender_settled; [by apply with_cells_tracked|exact M]).
  by apply unmount_settled.
Qed.

Lemma mount_settled : settled (mount same_session).
Proof.
  apply rerender_settled; [|reflexivity].
  split; [reflexivity|]. intros s c. discriminate.
Qed.

Lemma foldl_step_settled (evs : list Event) (rt : Runtime) :
  settled rt → settled (foldl (step same_session) rt evs).
Proof.
  revert rt. induction evs as [|ev evs IH]; intros rt H; simpl; [exact H|].
  by apply IH, step_settled.
Qed.

Lemma run_settled (evs : list Event) : settled (run same_session evs).
Proof. apply foldl_step_settled, mount_settled. Qed.

Lemma settled_channels (rt : Runtime) :
  settled rt → length (channels rt) = if session_active rt then 1%nat else 0%nat.
Proof.
  intros [[C _] A]. rewrite C, <- A. by destruct (cleanup rt).
Qed.

End ReactFacts.

(** C2.  After any sequence of events (auth changes in either direction,
    form submits, sign-out clicks, inserts, edits, unmount), whatever React
    makes of the identity of the session object, the component holds
    exactly one subscribed channel while it is mounted with a session and
    none otherwise; so never more than one. *)
Theorem one_live_subscription
    (same_session : option Session.t → option Session.t → bool)
    (evs : list Event) :
  (length (channels (run same_session evs)) ≤ 1)%nat
  ∧ length (channels (run same_session evs))
    = if session_active (run same_session evs) then 1%nat else 0%nat.
Proof.
  pose proof (settled_channels _ (run_settled same_session evs)) as H.
  split; [|exact H]. rewrite H. destruct (session_active _); lia.
Qed.

(** Two sign-in/sign-out cycles: one channel while signed in, each time
    a new one, none in between and none after unmounting. *)
Example subscription_over_two_cycles :
  let same := λ _ _ : option Session.t, false in
  let sign_in := AuthStateChange (Some Sample.alice) (loaded [Sample.m1]) Sample.no_profiles in
  let sign_out := AuthStateChange None Sample.ok Sample.ok in
  channels (run same []) = []
  ∧ channels (run same [sign_in]) = [1%nat]
  ∧ channels (run same [sign_in; sign_out]) = []
  ∧ channels (run same [sign_in; sign_out; sign_in]) = [3%nat]
  ∧ channels (run same [sign_in; sign_out; sign_in; ToggleMenu]) = [4%nat]
  ∧ channels (run same [sign_in; sign_out; sign_in; ToggleMenu; Unmount]) = [].
Proof. repeat split; reflexivity. Qed.


(* ===================================================================== *)
(** ** Sending: the two outcomes *)
(* ===================================================================== *)

(** X1.  With a draft that is not blank and a session, an accepted send
    issues one insert carrying the draft as typed (not trimmed) with the id
    and email of the session's user, and empties the draft; nothing else
    changes, in particular the sent message is not put on display. *)
Theorem sendMessage_accepted
    (cl st : State) (sess : Session.t) (d : option (list Message.t)) :
  Js.blank (newMessage cl) = false → session cl = Some sess →
  sendMessage cl (Resolved d None) st
  = (setNewMessage [] st,
     [PreventDefault;
      Request (InsertMessage (newMessage cl)
                 (Session.id (Session.user sess))
                 (Session.email (Session.user sess)))],
     Return ()).
Proof.
  intros B S. unfold sendMessage. rewrite truthy_trim, B, S. reflexivity.
Qed.

Lemma sendMessage_accepted_witness :
  Js.blank (newMessage (setNewMessage (Js.lit " hey ") Sample.chatting)) = false
  ∧ session (setNewMessage (Js.lit " hey ") Sample.chatting) = Some Sample.alice
  ∧ sendMessage (setNewMessage (Js.lit " hey ") Sample.chatting) Sample.ok
      (setNewMessage (Js.lit " hey ") Sample.chatting)
    = (setNewMessage [] (setNewMessage (Js.lit " hey ") Sample.chatting),
       [PreventDefault;
        Request (InsertMessage (Js.lit " hey ") Sample.u1 (Some (Js.lit "a@x.com")))],
       Return ()).
Proof.
  split; [reflexivity|]. split; [reflexivity|].
  exact (sendMessage_accepted
           (setNewMessage (Js.lit " hey ") Sample.chatting)
           (setNewMessage (Js.lit " hey ") Sample.chatting)
           Sample.alice None eq_refl eq_refl).
Defined.

(** X2.  A send that fails (the reply carries an error, or the call
    rejects) leaves the whole state as it is: the draft stays in the input,
    the [error] cell is not set; the failure only goes to the console. *)
Theorem sendMessage_failed_keeps_draft
    (cl st : State) (sess : Session.t) (r : Reply (list Message.t)) (e : Js.Error) :
  Js.blank (newMessage cl) = false → session cl = Some sess →
  Reply_error r = Some e →
  sendMessage cl r st
  = (st,
     [PreventDefault;
      Request (InsertMessage (newMessage cl)
                 (Session.id (Session.user sess))
                 (Session.email (Session.user sess)));
      ConsoleError (Js.lit "Error sending message:") e],
     Return ()).
Proof.
  intros B S E. unfold sendMessage. rewrite truthy_trim, B, S.
  destruct r as [d [e'|]|e']; simpl in E; try discriminate;
    injection E as ->; reflexivity.
Qed.

Lemma sendMessage_failed_keeps_draft_witness :
  Js.blank (newMessage (setNewMessage (Js.lit "hey") Sample.chatting)) = false
  ∧ session (setNewMessage (Js.lit "hey") Sample.chatting) = Some Sample.alice
  ∧ Reply_error (Rejects Sample.network_down : Reply (list Message.t))
    = Some Sample.network_down
  ∧ newMessage
      (final_state
         (sendMessage (setNewMessage (Js.lit "hey") Sample.chatting)
            (Rejects Sample.network_down)
            (setNewMessage (Js.lit "hey") Sample.chatting)))
    = Js.lit "hey".
Proof.
  split; [reflexivity|]. split; [reflexivity|]. split; [reflexivity|].
  rewrite (sendMessage_failed_keeps_draft
             (setNewMessage (Js.lit "hey") Sample.chatting)
             (setNewMessage (Js.lit "hey") Sample.chatting)
             Sample.alice (Rejects Sample.network_down) Sample.network_down
             eq_refl eq_refl eq_refl).
  reflexivity.
Defined.

(* ===================================================================== *)
(** ** Signing in, signing up, signing out: outcomes *)
(* ===================================================================== *)

(** X3.  Whatever the reply, [signIn] sends exactly one sign-in request
    with the email and password of the card, ends with the loading flag
    cleared, does not throw, and leaves the session, the feed, the cache,
    the draft and the menu as they were (the session only ever comes from
    the auth listener). *)
Theorem signIn_always_resolves (cl st : State) (r : Reply Session.t) :
  let res := signIn cl r st in
  requests (trace res) = [AuthSignInWithPassword (email cl) (password cl)]
  ∧ outcome res = Return ()
  ∧ loading (final_state res) = false
  ∧ session (final_state res) = session st
  ∧ messages (final_state res) = messages st
  ∧ profiles (final_state res) = profiles st
  ∧ newMessage (final_state res) = newMessage st
  ∧ menuOpen (final_state res) = menuOpen st.
Proof. destruct r as [d [e|]|e]; repeat split. Qed.

(** X4.  The two outcomes of [signIn].  Accepted: the error is cleared,
    email and password are emptied and the view flag is [chat].  Refused
    (error in the reply, or rejection): the message of the error is in the
    [error] cell, and email, password and view flag are as before. *)
Theorem signIn_outcomes (cl st : State) (r : Reply Session.t) :
  let st' := final_state (signIn cl r st) in
  match Reply_error r with
  | None =>
      error st' = None ∧ view st' = chat ∧ email st' = [] ∧ password st' = []
  | Some e =>
      error st' = Some (Js.message e) ∧ view st' = view st
      ∧ email st' = email st ∧ password st' = password st
  end.
Proof. destruct r as [d [e|]|e]; repeat split. Qed.

(** X5.  Whatever the reply, [signUp] sends exactly one registration
    request, ends with the loading flag cleared, does not throw and never
    changes the view flag or the session; when it is refused, the message
    of the error is in the [error] cell and email and password stay in the
    form. *)
Theorem signUp_always_resolves (cl st : State) (r : Reply Session.t) :
  let res := signUp cl r st in
  requests (trace res) = [AuthSignUp (email cl) (password cl)]
  ∧ outcome res = Return ()
  ∧ loading (final_state res) = false
  ∧ view (final_state res) = view st
  ∧ session (final_state res) = session st
  ∧ match Reply_error r with
    | None => True
    | Some e =>
        error (final_state res) = Some (Js.message e)
        ∧ email (final_state res) = email st
        ∧ password (final_state res) = password st
    end.
Proof. destruct r as [d [e|]|e]; repeat split. Qed.

(** X6.  A sign-out call that rejects changes nothing but the loading
    flag, which ends cleared: the view flag stays, the menu stays open if it
    was, and the failure goes to the console only. *)
Theorem signOut_rejected (st : State) (e : Js.Error) :
  signOut (Rejects e) st
  = (setLoading false st,
     [Request AuthSignOut; ConsoleError (Js.lit "Error signing out:") e],
     Return ()).
Proof. destruct st; reflexivity. Qed.

(* ===================================================================== *)
(** ** Loads and the cache: failures, repetition, order *)
(* ===================================================================== *)

(** X7.  Unless the reply of the history query has data and no error, the
    load changes nothing at all (the feed on display stays) and no profile
    query follows it: the history query is the only request. *)
Theorem fetchMessages_unsuccessful_keeps_feed
    (st : State) (rm : Reply (list Message.t)) (rp : Reply (list Profile.t)) :
  (∀ data, rm ≠ loaded data) →
  final_state (fetchMessages rm rp st) = st
  ∧ requests (trace (fetchMessages rm rp st)) = [load_request]
  ∧ outcome (fetchMessages rm rp st) = Return ().
Proof.
  intros H. destruct rm as [[data|] [e|]|e]; try (repeat split; fail).
  exfalso. by apply (H data).
Qed.

Lemma fetchMessages_unsuccessful_keeps_feed_witness :
  (∀ data, Rejects Sample.network_down ≠ loaded data)
  ∧ final_state (fetchMessages (Rejects Sample.network_down) Sample.no_profiles
                   Sample.chatting)
    = Sample.chatting.
Proof.
  assert (∀ data, Rejects Sample.network_down ≠ loaded data) as H
    by (intros data; discriminate).
  split; [exact H|].
  exact (proj1 (fetchMessages_unsuccessful_keeps_feed
                  Sample.chatting (Rejects Sample.network_down)
                  Sample.no_profiles H)).
Defined.

(** X8.  The feed does not wait for the profiles: when the history is
    loaded and the profile query that follows fails, the feed is the loaded
    history all the same, the cache is as before, and nothing is thrown. *)
Theorem fetchMessages_survives_failed_enrichment
    (st : State) (data : list Message.t) (rp : Reply (list Profile.t)) (e : Js.Error) :
  Reply_error rp = Some e →
  messages (final_state (fetchMessages (loaded data) rp st)) = data
  ∧ profiles (final_state (fetchMessages (loaded data) rp st)) = profiles st
  ∧ outcome (fetchMessages (loaded data) rp st) = Return ()
  ∧ ConsoleError (Js.lit "Error fetching profiles:") e
      ∈ trace (fetchMessages (loaded data) rp st).
Proof.
  intros E. destruct rp as [d [e'|]|e']; simpl in E; try discriminate;
    injection E as ->; (split; [reflexivity|]); (split; [reflexivity|]);
    (split; [reflexivity|]);
    apply list_elem_of_further, list_elem_of_further, list_elem_of_here.
Qed.

Lemma fetchMessages_survives_failed_enrichment_witness :
  Reply_error (Rejects Sample.network_down : Reply (list Profile.t))
  = Some Sample.network_down
  ∧ messages (final_state (fetchMessages (loaded [Sample.m2])
                             (Rejects Sample.network_down) Sample.chatting))
    = [Sample.m2].
Proof.
  split; [reflexivity|].
  exact (proj1 (fetchMessages_survives_failed_enrichment
                  Sample.chatting [Sample.m2] (Rejects Sample.network_down)
                  Sample.network_down eq_refl)).
Defined.

Lemma fetchProfiles_state
    (st : State) (userIds : list Js.str) (rp : Reply (list Profile.t)) :
  final_state (fetchProfiles userIds rp st)
  = match rp with
    | Resolved (Some data) None =>
        setProfiles (λ prev, spread prev (profileMap data)) st
    | _ => st
    end.
Proof. destruct rp as [[data|] [e|]|e]; reflexivity. Qed.

Lemma setProfiles_ext (f g : gmap Js.str Profile.t → gmap Js.str Profile.t) (st : State) :
  f (profiles st) = g (profiles st) → setProfiles f st = setProfiles g st.
Proof. intros H. unfold setProfiles. by rewrite H. Qed.

Lemma setProfiles_twice (f g : gmap Js.str Profile.t → gmap Js.str Profile.t) (st : State) :
  setProfiles g (setProfiles f st) = setProfiles (λ m, g (f m)) st.
Proof. reflexivity. Qed.

(** X9.  Merging is idempotent: delivering the same reply of a profile
    query a second time (a re-fetch that finds the same records) leaves the
    state exactly as the first delivery left it. *)
Theorem fetchProfiles_idempotent
    (st : State) (ids ids' : list Js.str) (rp : Reply (list Profile.t)) :
  final_state (fetchProfiles ids' rp (final_state (fetchProfiles ids rp st)))
  = final_state (fetchProfiles ids rp st).
Proof.
  rewrite !fetchProfiles_state.
  destruct rp as [[data|] [e|]|e]; try reflexivity.
  rewrite setProfiles_twice. apply setProfiles_ext.
  unfold spread. apply map_eq. intros k.
  rewrite !lookup_union. destruct (profileMap data !! k); by destruct (profiles st !! k).
Qed.

(** X10.  Two successful profile replies about different users can arrive
    in either order: when no id occurs in both, the cache ends the same. *)
Theorem fetchProfiles_commute
    (st : State) (ids1 ids2 : list Js.str) (data1 data2 : list Profile.t) :
  (∀ p q, p ∈ data1 → q ∈ data2 → Profile.id p ≠ Profile.id q) →
  final_state (fetchProfiles ids2 (Resolved (Some data2) None)
                 (final_state (fetchProfiles ids1 (Resolved (Some data1) None) st)))
  = final_state (fetchProfiles ids1 (Resolved (Some data1) None)
                   (final_state (fetchProfiles ids2 (Resolved (Some data2) None) st))).
Proof.
  intros D. rewrite !fetchProfiles_state, !setProfiles_twice.
  apply setProfiles_ext. unfold spread. apply map_eq. intros k.
  rewrite !lookup_union, !profileMap_lookup.
  destruct (decide (k = proto_key)); [by destruct (profiles st !! k)|].
  destruct (last (filter (λ p, Profile.id p = k) data1)) as [p|] eqn:L1;
    destruct (last (filter (λ p, Profile.id p = k) data2)) as [q|] eqn:L2;
    try by destruct (profiles st !! k).
  apply last_Some_elem_of, list_elem_of_filter in L1 as [E1 H1].
  apply last_Some_elem_of, list_elem_of_filter in L2 as [E2 H2].
  exfalso. apply (D p q H1 H2). congruence.
Qed.

Lemma fetchProfiles_commute_witness :
  (∀ p q, p ∈ [Scenario.p1_new] → q ∈ [Scenario.p2]
          → Profile.id p ≠ Profile.id q)
  ∧ final_state (fetchProfiles [Sample.u2] (Resolved (Some [Scenario.p2]) None)
                   (final_state (fetchProfiles [Sample.u1]
                                   (Resolved (Some [Scenario.p1_new]) None)
                                   Sample.chatting)))
    = final_state (fetchProfiles [Sample.u1] (Resolved (Some [Scenario.p1_new]) None)
                     (final_state (fetchProfiles [Sample.u2]
                                     (Resolved (Some [Scenario.p2]) None)
                                     Sample.chatting))).
Proof.
  assert (∀ p q, p ∈ [Scenario.p1_new] → q ∈ [Scenario.p2]
                 → Profile.id p ≠ Profile.id q) as D.
  { intros p q Hp Hq.
    apply list_elem_of_singleton in Hp. apply list_elem_of_singleton in Hq.
    subst p q. discriminate. }
  split; [exact D|].
  exact (fetchProfiles_commute Sample.chatting [Sample.u1] [Sample.u2]
           [Scenario.p1_new] [Scenario.p2] D).
Defined.

(** Both replies change the cache, and in either order it ends with the
    newer record of the first user and the record of the second. *)
Example fetchProfiles_commute_sample :
  let both := final_state
                (fetchProfiles [Sample.u2] (Resolved (Some [Scenario.p2]) None)
                   (final_state (fetchProfiles [Sample.u1]
                                   (Resolved (Some [Scenario.p1_new]) None)
                                   Sample.chatting))) in
  profiles Sample.chatting !! Sample.u1 = Some Sample.p1
  ∧ profiles Sample.chatting !! Sample.u2 = None
  ∧ profiles both !! Sample.u1 = Some Scenario.p1_new
  ∧ profiles both !! Sample.u2 = Some Scenario.p2.
Proof. repeat split; reflexivity. Qed.

(** X11.  The cache only grows: whatever the reply of a profile query, a
    user that had a cached profile still has one afterwards (possibly a
    newer record); no entry is ever removed. *)
Theorem fetchProfiles_never_evicts
    (st : State) (ids : list Js.str) (rp : Reply (list Profile.t)) (k : Js.str) :
  is_Some (profiles st !! k) →
  is_Some (profiles (final_state (fetchProfiles ids rp st)) !! k).
Proof.
  intros H. rewrite fetchProfiles_state.
  destruct rp as [[data|] [e|]|e]; try exact H.
  simpl. rewrite spread_lookup. by destruct (profileMap data !! k).
Qed.

Lemma fetchProfiles_never_evicts_witness :
  is_Some (profiles Sample.chatting !! Sample.u1)
  ∧ is_Some (profiles (final_state (fetchProfiles [Sample.u2] Sample.no_profiles
                                      Sample.chatting)) !! Sample.u1).
Proof.
  assert (is_Some (profiles Sample.chatting !! Sample.u1)) as H
    by (exists Sample.p1; reflexivity).
  split; [exact H|].
  exact (fetchProfiles_never_evicts Sample.chatting [Sample.u2]
           Sample.no_profiles Sample.u1 H).
Defined.

(** X12.  Once a profile query has succeeded with records of distinct
    ids, every message of a user whose record has an ordinary id (not the
    reserved key) and a non-empty avatar url is rendered with that image,
    whatever the cache held for the user before (and not with the initials
    fallback). *)
Theorem resolved_profile_is_rendered
    (st : State) (ids : list Js.str) (data : list Profile.t)
    (p : Profile.t) (url : Js.str) (sess : Session.t) (msg : Message.t) :
  NoDup (map Profile.id data) → p ∈ data → Profile.id p ≠ proto_key →
  Profile.avatar_url p = Some url → Js.truthy url = true →
  Message.user_id msg = Profile.id p →
  avatar (renderBubble
            (final_state (fetchProfiles ids (Resolved (Some data) None) st))
            sess msg)
  = Image url.
Proof.
  intros ND Hp K U T M. unfold renderBubble. cbn [avatar].
  rewrite M, (fetchProfiles_overwrites st ids data p ND Hp K).
  simpl. rewrite U, T. reflexivity.
Qed.

Lemma resolved_profile_is_rendered_witness :
  NoDup (map Profile.id [Scenario.p2; Scenario.p1_new])
  ∧ Scenario.p1_new ∈ [Scenario.p2; Scenario.p1_new]
  ∧ Profile.id Scenario.p1_new ≠ proto_key
  ∧ avatar (renderBubble Sample.chatting Sample.alice Sample.m1)
    = Image (Js.lit "https://x.com/a.png")
  ∧ avatar (renderBubble
              (final_state (fetchProfiles [Sample.u2; Sample.u1]
                              (Resolved (Some [Scenario.p2; Scenario.p1_new]) None)
                              Sample.chatting))
              Sample.alice Sample.m1)
    = Image (Js.lit "https://x.com/a2.png").
Proof.
  assert (NoDup (map Profile.id [Scenario.p2; Scenario.p1_new])) as ND.
  { apply NoDup_cons. split; [|apply NoDup_singleton].
    intros H. apply list_elem_of_singleton in H. discriminate H. }
  assert (Scenario.p1_new ∈ [Scenario.p2; Scenario.p1_new]) as Hp
    by apply list_elem_of_further, list_elem_of_here.
  assert (Profile.id Scenario.p1_new ≠ proto_key) as K by discriminate.
  split; [exact ND|]. split; [exact Hp|]. split; [exact K|].
  split; [reflexivity|].
  exact (resolved_profile_is_rendered Sample.chatting [Sample.u2; Sample.u1]
           [Scenario.p2; Scenario.p1_new] Scenario.p1_new
           (Js.lit "https://x.com/a2.png") Sample.alice Sample.m1
           ND Hp K eq_refl eq_refl eq_refl).
Defined.

(** A record under the reserved key is fetched and never shown: the
    message of that sender keeps the initials. *)
Example proto_record_is_not_rendered :
  avatar (renderBubble
            (final_state (fetchProfiles [proto_key]
                            (Resolved (Some [Scenario.p_proto]) None) initial))
            Sample.alice
            {| Message.id := 3; Message.created_at := Js.lit "2025-04-21T10:02:00Z";
               Message.content := Js.lit "hm"; Message.user_id := proto_key;
               Message.user_email := Js.lit "e@x.com";
               Message.profile_url := None |})
  = Initials (Js.lit "e@x.com").
Proof. reflexivity. Qed.

(* ===================================================================== *)
(** ** The auth effect *)
(* ===================================================================== *)


Lemma onGetSession_fulfilled
    (st : State) (sess : option Session.t)
    (rm : Reply (list Message.t)) (rp : Reply (list Profile.t)) :
  loading (final_state (onGetSession sess rm rp st)) = false
  ∧ session (final_state (onGetSession sess rm rp st)) = sess
  ∧ outcome (onGetSession sess rm rp st) = Return ()
  ∧ match sess with
    | Some _ => head (requests (trace (onGetSession sess rm rp st)))
                = Some load_request
    | None => trace (onGetSession sess rm rp st) = []
    end.
Proof.
  destruct sess as [s|]; [|repeat split].
  destruct rm as [[data|] [e|]|e]; destruct rp as [[ps|] [e'|]|e'];
    repeat split.
Qed.

(** X14.  The two settlements of [getSession] in the mount effect.  When
    it is fulfilled, the loading flag ends cleared and the session is
    stored whatever becomes of the history load it may start (the load
    never throws into the callback); with a session the first request is
    the history load, without one nothing is requested.  When it rejects,
    nothing runs, there being no rejection handler: the state is as it
    was, so a loading flag that was set stays set. *)
Theorem getSession_settlement
    (st : State) (s : Settled (option Session.t))
    (rm : Reply (list Message.t)) (rp : Reply (list Profile.t)) :
  match s with
  | Fulfilled sess =>
      loading (final_state (afterGetSession s rm rp st)) = false
      ∧ session (final_state (afterGetSession s rm rp st)) = sess
      ∧ outcome (afterGetSession s rm rp st) = Return ()
      ∧ match sess with
        | Some _ => head (requests (trace (afterGetSession s rm rp st)))
                    = Some load_request
        | None => trace (afterGetSession s rm rp st) = []
        end
  | Failed e =>
      afterGetSession s rm rp st = (st, [], Return ())
      ∧ loading (final_state (afterGetSession s rm rp st)) = loading st
  end.
Proof.
  destruct s as [sess|e].
  - apply onGetSession_fulfilled.
  - split; reflexivity.
Qed.

(** After a rejection the first screen stays: the loading screen. *)
Example getSession_rejected_stays_loading :
  render RE_RENDER_LIMIT
    (final_state (afterGetSession (Failed Sample.network_down) Sample.ok Sample.ok
                    initial))
  = Some (initial, LoadingScreen).
Proof. reflexivity. Qed.

(* ===================================================================== *)
(** ** Screens *)
(* ===================================================================== *)

Lemma render_two_passes (st : State) :
  render 2 st = render RE_RENDER_LIMIT st.
Proof.
  destruct (session st) as [sess|] eqn:S.
  - rewrite (render_session st sess S).
    destruct (view st) eqn:V.
    + rewrite setView_same by done.
      simpl. unfold ChatApp. rewrite S, V. simpl. by rewrite andb_false_r.
    + change (render 2 st) with
        (match ChatApp st with
         | (Some st', _) => render 1 st'
         | (None, screen) => Some (st, screen)
         end).
      unfold ChatApp at 1. rewrite S, V. simpl. rewrite andb_false_r.
      simpl. unfold ChatApp. simpl. rewrite S. simpl. by rewrite andb_false_r.
    + change (render 2 st) with
        (match ChatApp st with
         | (Some st', _) => render 1 st'
         | (None, screen) => Some (st, screen)
         end).
      unfold ChatApp at 1. rewrite S, V. simpl. rewrite andb_false_r.
      simpl. unfold ChatApp. simpl. rewrite S. simpl. by rewrite andb_false_r.
  - rewrite render_no_session by done.
    simpl. unfold ChatApp, renderChat. rewrite S. simpl.
    rewrite andb_true_r. by destruct (loading st).
Qed.

Lemma render_cases (st st' : State) (screen : Screen) :
  render RE_RENDER_LIMIT st = Some (st', screen) →
  (is_Some (session st) ∧ st' = setView chat st ∧ screen = renderChat st')
  ∨ (session st = None ∧ st' = st
     ∧ screen = if loading st then LoadingScreen
                else match view st with
                     | signup => renderSignup st
                     | chat => Null
                     | login => renderLogin st
                     end).
Proof.
  destruct (session st) as [sess|] eqn:S.
  - rewrite (render_session st sess S). intros [= <- <-]. left. eauto.
  - rewrite render_no_session by done. intros [= <- <-]. right. eauto.
Qed.

(** X15.  Rendering never runs away: for every state two passes are
    enough (the re-render limit is not reached), the state that is
    committed schedules no further update, and rendering it again commits
    the same state and screen. *)
Theorem render_settles (st : State) :
  ∃ st' screen,
    render 2 st = Some (st', screen)
    ∧ render RE_RENDER_LIMIT st = Some (st', screen)
    ∧ (ChatApp st').1 = None
    ∧ render RE_RENDER_LIMIT st' = Some (st', screen).
Proof.
  destruct (render_total st) as [[st' screen] R].
  exists st', screen. rewrite render_two_passes. split; [exact R|].
  split; [exact R|].
  destruct (render_cases _ _ _ R) as [([sess S] & -> & ->)|(S & -> & ->)].
  - assert (session (setView chat st) = Some sess) as S' by exact S.
    split.
    + unfold ChatApp. rewrite S'. simpl. by rewrite andb_false_r.
    + rewrite (render_session _ sess S'). reflexivity.
  - split.
    + unfold ChatApp. rewrite S. simpl. rewrite andb_true_r.
      by destruct (loading st).
    + by rewrite render_no_session.
Qed.

(** X16.  The submit button of a card that is on screen is never
    disabled: the login and signup cards are rendered only while the
    loading flag is clear (with the flag set and no session the loading
    screen takes their place), so their [disabled={loading}] is false. *)
Theorem visible_card_can_submit (st st' : State) (screen : Screen) (f : AuthForm) :
  render RE_RENDER_LIMIT st = Some (st', screen) →
  auth_form screen = Some f →
  submit_disabled f = false.
Proof.
  intros R F.
  destruct (render_cases _ _ _ R) as [([sess S] & -> & ->)|(S & -> & ->)].
  - unfold renderChat in F. simpl in F. rewrite S in F. discriminate.
  - destruct (loading st) eqn:L; [discriminate|].
    destruct (view st); simpl in F; try discriminate;
      injection F as <-; exact L.
Qed.

Lemma visible_card_can_submit_witness :
  render RE_RENDER_LIMIT (Sample.signing_up "abcdef")
  = Some (Sample.signing_up "abcdef", renderSignup (Sample.signing_up "abcdef"))
  ∧ ∃ f, auth_form (renderSignup (Sample.signing_up "abcdef")) = Some f
         ∧ submit_disabled f = false.
Proof.
  split; [reflexivity|].
  eexists. split; [reflexivity|].
  exact (visible_card_can_submit (Sample.signing_up "abcdef") _ _ _
           eq_refl eq_refl).
Defined.

(** X17.  A sign-in request goes out on a form submit only from the login
    card (no session, view flag [login]) and only with an email and a
    password that are both non-empty; they are the ones typed in the
    card.  The login card has no minimum length. *)
Theorem login_form_requires_fields
    (edited : bool) (cl st : State) (r : Reply Session.t) (e p : Js.str) :
  Request (AuthSignInWithPassword e p) ∈ trace (submitAuthForm edited cl r st) →
  e = email cl ∧ p = password cl ∧ e ≠ [] ∧ p ≠ []
  ∧ session cl = None ∧ view cl = login.
Proof.
  unfold submitAuthForm.
  destruct (session cl) as [sess|] eqn:S.
  - rewrite (render_session cl sess S). unfold renderChat. simpl. rewrite S.
    intros H. by apply elem_of_nil in H.
  - rewrite render_no_session by done.
    destruct (loading cl); [intros H; by apply elem_of_nil in H|].
    destruct (view cl) eqn:V.
    + intros H. by apply elem_of_nil in H.
    + unfold renderLogin. destruct (form_valid _ _) eqn:F.
      * rewrite elem_of_requests, signIn_requests.
        intros H. apply list_elem_of_singleton in H. injection H as -> ->.
        unfold form_valid, input_valid in F.
        cbn [email_input password_input required value minLength negb orb] in F.
        rewrite !andb_true_r in F. apply andb_prop in F as [F1 F2].
        repeat split; try done.
        -- intros E. rewrite E in F1. discriminate.
        -- intros E. rewrite E in F2. discriminate.
      * intros H. by apply elem_of_nil in H.
    + unfold renderSignup. destruct (form_valid _ _).
      * rewrite elem_of_requests, signUp_requests.
        intros H. apply list_elem_of_singleton in H. discriminate.
      * intros H. by apply elem_of_nil in H.
Qed.

Lemma login_form_requires_fields_witness :
  Request (AuthSignInWithPassword (Js.lit "a@x.com") (Js.lit "x"))
    ∈ trace (submitAuthForm true (setView login (Sample.signing_up "x")) Sample.ok
               (setView login (Sample.signing_up "x")))
  ∧ Js.lit "x" ≠ [].
Proof.
  assert (Request (AuthSignInWithPassword (Js.lit "a@x.com") (Js.lit "x"))
            ∈ trace (submitAuthForm true (setView login (Sample.signing_up "x")) Sample.ok
                       (setView login (Sample.signing_up "x")))) as H.
  { apply list_elem_of_further, list_elem_of_here. }
  split; [exact H|].
  exact (proj1 (proj2 (proj2 (proj2
           (login_form_requires_fields _ _ _ _ _ _ H))))).
Defined.

(** X18.  The send button and the send handler agree: on the chat screen
    the button is disabled exactly when the draft is blank, and that is
    exactly when submitting the draft sends nothing. *)
Theorem send_button_matches_guard
    (st : State) (sess : Session.t) (r : Reply (list Message.t)) :
  session st = Some sess →
  ∃ st' panel,
    render RE_RENDER_LIMIT st = Some (st', ChatScreen panel)
    ∧ send_disabled panel = Js.blank (newMessage st)
    ∧ (send_disabled panel = true
       ↔ requests (trace (dispatch (λ cl, sendMessage cl r) st')) = []).
Proof.
  intros S. rewrite (render_session st sess S).
  unfold renderChat. cbn [session setView]. rewrite S.
  eexists _, _. split; [reflexivity|].
  cbn [send_disabled newMessage setView]. rewrite truthy_trim, negb_involutive.
  split; [reflexivity|].
  unfold dispatch, sendMessage. cbn [newMessage session setView].
  rewrite truthy_trim, S.
  destruct (Js.blank (newMessage st)); simpl.
  - split; reflexivity.
  - split; [discriminate|]. destruct r as [d [e|]|e]; discriminate.
Qed.

Lemma send_button_matches_guard_witness :
  session Sample.chatting = Some Sample.alice
  ∧ ∃ st' panel,
      render RE_RENDER_LIMIT Sample.chatting = Some (st', ChatScreen panel)
      ∧ send_disabled panel = Js.blank (newMessage Sample.chatting)
      ∧ (send_disabled panel = true
         ↔ requests (trace (dispatch (λ cl, sendMessage cl Sample.ok) st')) = []).
Proof.
  split; [reflexivity|].
  exact (send_button_matches_guard Sample.chatting Sample.alice Sample.ok eq_refl).
Defined.

(** X19.  The links between the login and signup cards clear the banner
    and keep what was typed: after the switch the other card is on screen
    with no banner and with the same email and password in its inputs. *)
Theorem switching_cards_keeps_inputs (rt : Runtime) (v : View) :
  session (cells rt) = None → loading (cells rt) = false → v ≠ chat →
  ∃ f, render RE_RENDER_LIMIT (handle rt (SwitchView v))
       = Some (handle rt (SwitchView v),
               match v with signup => SignupScreen f | _ => LoginScreen f end)
       ∧ banner f = None
       ∧ value (email_input f) = email (cells rt)
       ∧ value (password_input f) = password (cells rt).
Proof.
  intros S L V. cbn [handle].
  rewrite render_no_session by exact S.
  cbn [loading view setView setError]. rewrite L.
  destruct v; [done| |]; eexists; (split; [reflexivity|]); repeat split.
Qed.

Lemma switching_cards_keeps_inputs_witness :
  session (Sample.signing_up "abc") = None
  ∧ loading (Sample.signing_up "abc") = false
  ∧ login ≠ chat
  ∧ ∃ f, render RE_RENDER_LIMIT
           (handle (with_cells (Sample.signing_up "abc") (mount (λ _ _, false)))
              (SwitchView login))
         = Some (handle (with_cells (Sample.signing_up "abc") (mount (λ _ _, false)))
                   (SwitchView login),
                 LoginScreen f)
         ∧ banner f = None
         ∧ value (email_input f) = Js.lit "a@x.com"
         ∧ value (password_input f) = Js.lit "abc".
Proof.
  assert (login ≠ chat) as V by discriminate.
  split; [reflexivity|]. split; [reflexivity|]. split; [exact V|].
  exact (switching_cards_keeps_inputs
           (with_cells (Sample.signing_up "abc") (mount (λ _ _, false)))
           login eq_refl eq_refl V).
Defined.

(* ===================================================================== *)
(** ** The mounted component over a run *)
(* ===================================================================== *)

Section RunFacts.

Variable same_session : option Session.t → option Session.t → bool.

Lemma run_snoc (evs : list Event) (ev : Event) :
  run same_session (evs ++ [ev]) = step same_session (run same_session evs) ev.
Proof. unfold run. by rewrite foldl_app. Qed.

(** What a commit does on a tracked runtime: the effect always runs
    again, on the client of this render. *)
Lemma commit_tracked (rt : Runtime) :
  tracked rt →
  cells (commit same_session rt) = cells rt
  ∧ mounted (commit same_session rt) = mounted rt
  ∧ clients (commit same_session rt) = S (clients rt)
  ∧ channels (commit same_session rt)
    = (if bool_decide (is_Some (session (cells rt))) then [clients rt] else []).
Proof.
  intros T. pose proof (run_cleanup_tracked rt T) as C.
  destruct T as [_ D]. unfold commit.
  assert (match deps rt with
          | Some (s0, c0) =>
              negb (same_session s0 (session (cells rt)) && (c0 =? clients rt)%nat)
          | None => true
          end = true) as ->.
  { destruct (deps rt) as [[s0 c0]|] eqn:E; [|done].
    specialize (D s0 c0 eq_refl).
    assert ((c0 =? clients rt)%nat = false) as -> by (apply Nat.eqb_neq; lia).
    by rewrite andb_false_r. }
  rewrite C. unfold subscription_effect.
  destruct (session (cells rt)); repeat split.
Qed.

(** A re-render of a tracked runtime: the cells are the rendered ones,
    which differ from the given ones in the view flag at most. *)
Lemma rerender_tracked (rt : Runtime) :
  tracked rt →
  ∃ st' screen,
    render RE_RENDER_LIMIT (cells rt) = Some (st', screen)
    ∧ cells (rerender same_session rt) = st'
    ∧ mounted (rerender same_session rt) = mounted rt
    ∧ clients (rerender same_session rt) = S (clients rt)
    ∧ channels (rerender same_session rt)
      = (if bool_decide (is_Some (session st')) then [clients rt] else []).
Proof.
  intros T. destruct (render_total (cells rt)) as [[st' screen] R].
  exists st', screen. split; [exact R|].
  unfold rerender. rewrite R.
  destruct (commit_tracked (with_cells st' rt)) as (H1 & H2 & H3 & H4);
    [by apply with_cells_tracked|].
  rewrite H1, H2, H3, H4. repeat split.
Qed.

Lemma rendered_keeps (st st' : State) (screen : Screen) :
  render RE_RENDER_LIMIT st = Some (st', screen) →
  session st' = session st ∧ messages st' = messages st
  ∧ loading st' = loading st
  ∧ (is_Some (session st') → view st' = chat)
  ∧ (session st = None → st' = st).
Proof.
  intros R.
  destruct (render_cases _ _ _ R) as [([sess S] & -> & _)|(S & -> & _)].
  - repeat split; try done. intros E. simpl in E. congruence.
  - repeat split; try done. rewrite S. intros [x Hx]. discriminate.
Qed.

(** While the component is mounted with a session, the view flag of its
    committed cells is [chat]. *)
Lemma run_view_chat (evs : list Event) :
  session_active (run same_session evs) = true →
  view (cells (run same_session evs)) = chat.
Proof.
  induction evs as [|ev evs IH] using rev_ind.
  - intros H. discriminate H.
  - rewrite run_snoc. set (rt := run same_session evs) in *.
    pose proof (run_settled same_session evs) as [T _]. fold rt in T.
    unfold step. destruct (mounted rt) eqn:M.
    + destruct ev;
        try (match goal with
             | |- context [rerender _ (with_cells ?h rt)] =>
                 destruct (rerender_tracked (with_cells h rt)
                             (with_cells_tracked h rt T))
                   as (st' & screen & R & C & _ & _ & _);
                 unfold session_active; rewrite C;
                 intros A; apply andb_prop in A as [_ A];
                 apply bool_decide_eq_true in A;
                 by apply (rendered_keeps _ _ _ R)
             end).
      unfold session_active, unmount. simpl. discriminate.
    + exact IH.
Qed.

(** The channels of a run were opened by clients of earlier renders. *)
Lemma run_channels_old (evs : list Event) (ch : nat) :
  ch ∈ channels (run same_session evs) →
  (ch < clients (run same_session evs))%nat.
Proof.
  induction evs as [|ev evs IH] using rev_ind.
  - unfold run, mount. cbn [foldl].
    match goal with
    | |- context [rerender _ ?r] =>
        destruct (rerender_tracked r) as (st' & screen & _ & _ & _ & K & Ch)
    end.
    { split; [reflexivity|]. intros s c. discriminate. }
    rewrite K, Ch. destruct (bool_decide _).
    + intros H. apply list_elem_of_singleton in H. subst. cbn. lia.
    + intros H. by apply elem_of_nil in H.
  - rewrite run_snoc. set (rt := run same_session evs) in *.
    pose proof (run_settled same_session evs) as [T _]. fold rt in T.
    unfold step. destruct (mounted rt) eqn:M; [|exact IH].
    destruct ev;
      try (match goal with
           | |- context [rerender _ (with_cells ?h rt)] =>
               destruct (rerender_tracked (with_cells h rt)
                           (with_cells_tracked h rt T))
                 as (st' & screen & _ & _ & _ & K & Ch);
               rewrite K, Ch; cbn [clients with_cells];
               destruct (bool_decide _);
               [ intros H; apply list_elem_of_singleton in H; lia
               | intros H; by apply elem_of_nil in H ]
           end).
    unfold unmount. cbn [channels clients].
    rewrite (run_cleanup_tracked rt T). intros H. by apply elem_of_nil in H.
Qed.

(** X20.  A session that is withdrawn by the auth listener while the
    chat is on screen (expiry, sign-out elsewhere; not the sign-out button,
    which sets the view flag first) leaves a blank screen: the view flag is
    still [chat], and the chat renders nothing without a session. *)
Theorem withdrawn_session_blank_screen
    (evs : list Event) (rm : Reply (list Message.t)) (rp : Reply (list Profile.t)) :
  session_active (run same_session evs) = true →
  loading (cells (run same_session evs)) = false →
  ∃ st',
    cells (run same_session (evs ++ [AuthStateChange None rm rp])) = st'
    ∧ session st' = None
    ∧ render RE_RENDER_LIMIT st' = Some (st', Null).
Proof.
  intros A L. pose proof (run_view_chat evs A) as V.
  rewrite run_snoc. set (rt := run same_session evs) in *.
  pose proof (run_settled same_session evs) as [T _]. fold rt in T.
  unfold session_active in A. apply andb_prop in A as [M _].
  unfold step. rewrite M. cbn [handle].
  rewrite onAuthStateChange_null. unfold final_state. cbn [fst].
  destruct (rerender_tracked (with_cells (setSession None (cells rt)) rt)
              (with_cells_tracked _ rt T)) as (st' & screen & R & C & _).
  cbn [cells with_cells] in R.
  destruct (rendered_keeps _ _ _ R) as (_ & _ & _ & _ & E).
  specialize (E eq_refl). rewrite E in C. rewrite C.
  exists (setSession None (cells rt)).
  split; [reflexivity|]. split; [reflexivity|].
  rewrite render_no_session by reflexivity.
  cbn [loading view setSession]. by rewrite L, V.
Qed.

(** X21.  An insert emitted by the backend is put on display exactly once
    while the component is mounted with a session, at the end of the feed,
    and not at all otherwise. *)
Theorem insert_displayed_once
    (evs : list Event) (msg : Message.t) (rp : Reply (list Profile.t)) :
  messages (cells (run same_session (evs ++ [Inserted msg rp])))
  = messages (cells (run same_session evs))
    ++ (if session_active (run same_session evs) then [msg] else []).
Proof.
  rewrite run_snoc. set (rt := run same_session evs).
  pose proof (run_settled same_session evs) as [T A]. fold rt in T, A.
  unfold step. destruct (mounted rt) eqn:M.
  - destruct (rerender_tracked (with_cells (handle rt (Inserted msg rp)) rt)
                (with_cells_tracked _ rt T)) as (st' & screen & R & C & _).
    rewrite C. cbn [cells with_cells] in R.
    destruct (rendered_keeps _ _ _ R) as (_ & -> & _).
    cbn [handle]. destruct T as [Ch _]. rewrite Ch, <- A.
    destruct (cleanup rt); simpl.
    + by destruct (onInsert_appends (cells rt) msg rp) as [-> _].
    + by rewrite app_nil_r.
  - unfold session_active. rewrite M. simpl. by rewrite app_nil_r.
Qed.

(** X22.  Whenever a render of the component is committed, the
    subscription effect runs again, whatever React makes of the session
    dependency (its other dependency, the client, is created anew in the
    component body): every channel subscribed before is removed and, with
    a session in the committed cells, exactly one channel is subscribed, on
    the client of this render. *)
Theorem commit_always_resubscribes (evs : list Event) (st : State) :
  channels (commit same_session (with_cells st (run same_session evs)))
  = (if bool_decide (is_Some (session st))
     then [clients (run same_session evs)] else [])
  ∧ ∀ ch, ch ∈ channels (run same_session evs) →
          ch ∉ channels (commit same_session (with_cells st (run same_session evs))).
Proof.
  set (rt := run same_session evs).
  pose proof (run_settled same_session evs) as [T _]. fold rt in T.
  destruct (commit_tracked (with_cells st rt) (with_cells_tracked st rt T))
    as (_ & _ & _ & Ch).
  cbn [cells clients with_cells] in Ch. rewrite Ch.
  split; [reflexivity|].
  intros ch Hch. pose proof (run_channels_old evs ch Hch) as Lt. fold rt in Lt.
  destruct (bool_decide _); [|apply not_elem_of_nil].
  intros H. apply list_elem_of_singleton in H. lia.
Qed.

Lemma rendered_frame (st st' : State) (screen : Screen) :
  render RE_RENDER_LIMIT st = Some (st', screen) →
  session st' = session st ∧ loading st' = loading st
  ∧ menuOpen st' = menuOpen st ∧ messages st' = messages st
  ∧ profiles st' = profiles st.
Proof.
  intros R.
  destruct (render_cases _ _ _ R) as [(_ & -> & _)|(_ & -> & _)]; repeat split.
Qed.

(** An event handled by the mounted component leaves it mounted, and the
    committed cells are the handled ones up to the view flag. *)
Lemma run_snoc_frame (evs : list Event) (ev : Event) :
  mounted (run same_session evs) = true → ev ≠ Unmount →
  mounted (run same_session (evs ++ [ev])) = true
  ∧ session (cells (run same_session (evs ++ [ev])))
    = session (handle (run same_session evs) ev)
  ∧ loading (cells (run same_session (evs ++ [ev])))
    = loading (handle (run same_session evs) ev)
  ∧ menuOpen (cells (run same_session (evs ++ [ev])))
    = menuOpen (handle (run same_session evs) ev)
  ∧ messages (cells (run same_session (evs ++ [ev])))
    = messages (handle (run same_session evs) ev)
  ∧ profiles (cells (run same_session (evs ++ [ev])))
    = profiles (handle (run same_session evs) ev).
Proof.
  intros M N. rewrite run_snoc. set (rt := run same_session evs) in *.
  pose proof (run_settled same_session evs) as [T _]. fold rt in T.
  assert (step same_session rt ev
          = rerender same_session (with_cells (handle rt ev) rt)) as ->.
  { unfold step. rewrite M. destruct ev; try reflexivity. done. }
  destruct (rerender_tracked (with_cells (handle rt ev) rt)
              (with_cells_tracked _ rt T)) as (st' & screen & R & C & M' & _).
  rewrite C, M'. cbn [cells mounted with_cells] in *.
  split; [exact M|]. by apply (rendered_frame _ _ _ R).
Qed.

Lemma onAuthStateChange_session
    (st : State) (sess : Session.t)
    (rm : Reply (list Message.t)) (rp : Reply (list Profile.t)) :
  final_state (onAuthStateChange (Some sess) rm rp st)
  = final_state (fetchMessages rm rp (setSession (Some sess) st)).
Proof.
  unfold onAuthStateChange, final_state, mbind, Handler_bind, modify.
  by destruct (fetchMessages rm rp (setSession (Some sess) st)) as [[s t] o].
Qed.

Lemma fetchMessages_not_loaded
    (st : State) (rm : Reply (list Message.t)) (rp : Reply (list Profile.t)) :
  (∀ data, rm ≠ loaded data) → final_state (fetchMessages rm rp st) = st.
Proof.
  intros H. destruct rm as [[data|] [e|]|e]; try reflexivity.
  exfalso. by apply (H data).
Qed.

(** C4, as the code has it.  [signOut], when its call resolves, closes
    the menu and leaves session, feed and cache alone.  With the null
    session delivered by the auth listener, before or after the
    continuation of [signOut], the mounted component ends without a
    session, not loading, with the menu closed and no subscribed channel,
    and with the feed and the profile cache it had before.  A sign-in that
    follows shows that feed until its load succeeds, and the loaded
    history from then on. *)
Theorem signOut_keeps_feed
    (evs : list Event) (d : option unit) (e : option Js.Error)
    (rm : Reply (list Message.t)) (rp : Reply (list Profile.t)) :
  mounted (run same_session evs) = true →
  (∀ st0, menuOpen (final_state (signOut (Resolved d e) st0)) = false
          ∧ session (final_state (signOut (Resolved d e) st0)) = session st0
          ∧ messages (final_state (signOut (Resolved d e) st0)) = messages st0
          ∧ profiles (final_state (signOut (Resolved d e) st0)) = profiles st0)
  ∧ ∀ later,
      later = [ClickSignOut (Resolved d e); AuthStateChange None rm rp]
      ∨ later = [AuthStateChange None rm rp; ClickSignOut (Resolved d e)] →
      session (cells (run same_session (evs ++ later))) = None
      ∧ loading (cells (run same_session (evs ++ later))) = false
      ∧ menuOpen (cells (run same_session (evs ++ later))) = false
      ∧ channels (run same_session (evs ++ later)) = []
      ∧ messages (cells (run same_session (evs ++ later)))
        = messages (cells (run same_session evs))
      ∧ profiles (cells (run same_session (evs ++ later)))
        = profiles (cells (run same_session evs))
      ∧ (∀ sess rm' rp',
           (∀ data, rm' ≠ loaded data) →
           messages (cells (run same_session
                              ((evs ++ later) ++ [AuthStateChange (Some sess) rm' rp'])))
           = messages (cells (run same_session evs)))
      ∧ (∀ sess data rp',
           messages (cells (run same_session
                              ((evs ++ later)
                               ++ [AuthStateChange (Some sess) (loaded data) rp'])))
           = data).
Proof.
  intros M. split.
  { intros st0. rewrite signOut_resolved. repeat split. }
  intros later Hl.
  assert (∃ a b, later = [a; b] ∧ a ≠ Unmount ∧ b ≠ Unmount
                 ∧ ∀ rt rt',
                     session (cells rt') = session (handle rt a) →
                     loading (cells rt') = loading (handle rt a) →
                     menuOpen (cells rt') = menuOpen (handle rt a) →
                     messages (cells rt') = messages (handle rt a) →
                     profiles (cells rt') = profiles (handle rt a) →
                     session (handle rt' b) = None
                     ∧ loading (handle rt' b) = false
                     ∧ menuOpen (handle rt' b) = false
                     ∧ messages (handle rt' b) = messages (cells rt)
                     ∧ profiles (handle rt' b) = profiles (cells rt))
    as (a & b & -> & Na & Nb & H).
  { destruct Hl as [->| ->]; eexists _, _; (split; [reflexivity|]);
      (split; [discriminate|]); (split; [discriminate|]);
      intros rt rt'; cbn [handle];
      rewrite signOut_resolved, onAuthStateChange_null; unfold final_state;
      cbn [fst session loading menuOpen messages profiles
           setLoading setMenuOpen setView setSession];
      intros S L O F P; repeat split; assumption. }
  assert (evs ++ [a; b] = (evs ++ [a]) ++ [b]) as E
    by (rewrite <- app_assoc; reflexivity).
  rewrite E.
  destruct (run_snoc_frame evs a M Na) as (Ma & Sa & La & Oa & Fa & Pa).
  destruct (run_snoc_frame (evs ++ [a]) b Ma Nb) as (Mb & Sb & Lb & Ob & Fb & Pb).
  destruct (H _ _ Sa La Oa Fa Pa) as (S' & L' & O' & F' & P').
  rewrite S' in Sb. rewrite L' in Lb. rewrite O' in Ob.
  rewrite F' in Fb. rewrite P' in Pb.
  split; [exact Sb|]. split; [exact Lb|]. split; [exact Ob|]. split.
  { apply nil_length_inv.
    rewrite (settled_channels _ (run_settled same_session ((evs ++ [a]) ++ [b]))).
    unfold session_active. rewrite Sb. by rewrite andb_false_r. }
  split; [exact Fb|]. split; [exact Pb|]. split.
  - intros sess rm' rp' Hn.
    destruct (run_snoc_frame ((evs ++ [a]) ++ [b])
                (AuthStateChange (Some sess) rm' rp') Mb ltac:(discriminate))
      as (_ & _ & _ & _ & Fc & _).
    rewrite Fc. cbn [handle]. rewrite onAuthStateChange_session.
    rewrite fetchMessages_not_loaded by exact Hn. exact Fb.
  - intros sess data rp'.
    destruct (run_snoc_frame ((evs ++ [a]) ++ [b])
                (AuthStateChange (Some sess) (loaded data) rp') Mb ltac:(discriminate))
      as (_ & _ & _ & _ & Fc & _).
    rewrite Fc. cbn [handle]. rewrite onAuthStateChange_session.
    by destruct (fetchMessages_loaded (setSession (Some sess)
                   (cells (run same_session ((evs ++ [a]) ++ [b])))) data rp')
      as [-> _].
Qed.

End RunFacts.

Lemma signOut_keeps_feed_witness :
  mounted (run (λ _ _, false)
             [GotSession (Some Sample.alice) (loaded [Sample.m1])
                (Resolved (Some [Sample.p1]) None)]) = true
  ∧ session (cells (run (λ _ _, false)
                      ([GotSession (Some Sample.alice) (loaded [Sample.m1])
                          (Resolved (Some [Sample.p1]) None)]
                       ++ [ClickSignOut Sample.ok;
                           AuthStateChange None Sample.ok Sample.ok]))) = None
  ∧ messages (cells (run (λ _ _, false)
                       ([GotSession (Some Sample.alice) (loaded [Sample.m1])
                           (Resolved (Some [Sample.p1]) None)]
                        ++ [ClickSignOut Sample.ok;
                            AuthStateChange None Sample.ok Sample.ok])))
    = [Sample.m1].
Proof.
  split; [reflexivity|].
  pose proof (proj2 (signOut_keeps_feed (λ _ _, false)
                [GotSession (Some Sample.alice) (loaded [Sample.m1])
                   (Resolved (Some [Sample.p1]) None)]
                None None Sample.ok Sample.ok eq_refl)
              [ClickSignOut Sample.ok; AuthStateChange None Sample.ok Sample.ok]
              (or_introl eq_refl)) as (S & _ & _ & _ & F & _).
  split; [exact S|]. rewrite F. reflexivity.
Defined.

Lemma withdrawn_session_blank_screen_witness :
  session_active
    (run (λ _ _, false)
       [GotSession (Some Sample.alice) (loaded [Sample.m1]) Sample.no_profiles]) = true
  ∧ loading
      (cells (run (λ _ _, false)
                [GotSession (Some Sample.alice) (loaded [Sample.m1])
                   Sample.no_profiles])) = false
  ∧ ∃ st',
      cells (run (λ _ _, false)
               ([GotSession (Some Sample.alice) (loaded [Sample.m1])
                   Sample.no_profiles]
                ++ [AuthStateChange None Sample.ok Sample.ok])) = st'
      ∧ session st' = None
      ∧ render RE_RENDER_LIMIT st' = Some (st', Null).
Proof.
  split; [reflexivity|]. split; [reflexivity|].
  exact (withdrawn_session_blank_screen (λ _ _, false)
           [GotSession (Some Sample.alice) (loaded [Sample.m1]) Sample.no_profiles]
           Sample.ok Sample.ok eq_refl eq_refl).
Defined.

(** Signed in, with the session dependency comparing equal: a menu toggle
    is committed and the channel is replaced all the same. *)
Example resubscribed_on_menu_toggle :
  let signed_in := [AuthStateChange (Some Sample.alice) (loaded [Sample.m1])
                      Sample.no_profiles] in
  channels (run (λ _ _, true) signed_in) = [1%nat]
  ∧ channels (run (λ _ _, true) (signed_in ++ [ToggleMenu])) = [2%nat].
Proof. split; reflexivity. Qed.

(* ===================================================================== *)
(** ** The chat screen *)
(* ===================================================================== *)

(** X23.  An empty history is a successful load like any other: the feed
    on display is emptied, and a profile query goes out all the same, with
    an empty list of ids. *)
Theorem fetchMessages_empty_history (st : State) (rp : Reply (list Profile.t)) :
  messages (final_state (fetchMessages (loaded []) rp st)) = []
  ∧ requests (trace (fetchMessages (loaded []) rp st))
    = [load_request; SelectProfilesIn (Js.lit "id") []].
Proof. destruct rp as [[ps|] [e|]|e]; split; reflexivity. Qed.

(** X24.  With a session, the chat screen has one bubble for every
    message of the feed, in feed order and none left out, keyed by the
    message id and carrying its content; so an id that is twice in the feed
    is twice among the keys. *)
Theorem chat_screen_shows_feed (st : State) (sess : Session.t) :
  session st = Some sess →
  ∃ st' panel,
    render RE_RENDER_LIMIT st = Some (st', ChatScreen panel)
    ∧ map key (bubbles panel) = displayed_ids st
    ∧ map text (bubbles panel) = map Message.content (messages st)
    ∧ menu panel = menuOpen st
    ∧ draft panel = newMessage st.
Proof.
  intros S. rewrite (render_session st sess S).
  unfold renderChat. cbn [session setView]. rewrite S.
  eexists _, _. split; [reflexivity|].
  cbn [bubbles menu draft messages menuOpen newMessage setView].
  unfold displayed_ids. rewrite <- !list_fmap_compose. repeat split.
Qed.

Lemma chat_screen_shows_feed_witness :
  session Sample.chatting = Some Sample.alice
  ∧ ∃ st' panel,
      render RE_RENDER_LIMIT Sample.chatting = Some (st', ChatScreen panel)
      ∧ map key (bubbles panel) = displayed_ids Sample.chatting
      ∧ map text (bubbles panel) = map Message.content (messages Sample.chatting)
      ∧ menu panel = menuOpen Sample.chatting
      ∧ draft panel = newMessage Sample.chatting.
Proof.
  split; [reflexivity|].
  exact (chat_screen_shows_feed Sample.chatting Sample.alice eq_refl).
Defined.

(** X25.  A bubble shows an image exactly when the cache has a profile
    for the sender of the message with a non-empty avatar url, and then
    that url; in every other case (no profile, no url, empty url) it shows
    the initials taken from the email of the message. *)
Theorem avatar_image_iff_cached
    (st : State) (sess : Session.t) (msg : Message.t) :
  (∀ url, avatar (renderBubble st sess msg) = Image url
          ↔ ∃ p, profiles st !! Message.user_id msg = Some p
                 ∧ Profile.avatar_url p = Some url ∧ url ≠ [])
  ∧ ((¬ ∃ p url, profiles st !! Message.user_id msg = Some p
                 ∧ Profile.avatar_url p = Some url ∧ url ≠ [])
     → avatar (renderBubble st sess msg) = Initials (Message.user_email msg)).
Proof.
  unfold renderBubble. cbn [avatar].
  destruct (profiles st !! Message.user_id msg) as [p|] eqn:P; simpl.
  - destruct (Profile.avatar_url p) as [u|] eqn:U.
    + destruct u as [|c u]; simpl.
      * split.
        -- intros url. split; [discriminate|].
           intros (q & [= <-] & Q & N). congruence.
        -- done.
      * split.
        -- intros url. split.
           ++ intros [= <-]. exists p. done.
           ++ intros (q & [= <-] & Q & N). congruence.
        -- intros H. exfalso. apply H. exists p, (c :: u). done.
    + split; [|done].
      intros url. split; [discriminate|].
      intros (q & [= <-] & Q & N). congruence.
  - split; [|done].
    intros url. split; [discriminate|]. intros (q & Q & _). discriminate.
Qed.

(** X26.  Which screen is committed depends on the session and the
    loading flag as follows: the chat screen exactly when there is a
    session, the loading screen exactly when there is none and the flag is
    set. *)
Theorem screen_selection (st st' : State) (screen : Screen) :
  render RE_RENDER_LIMIT st = Some (st', screen) →
  ((∃ panel, screen = ChatScreen panel) ↔ is_Some (session st))
  ∧ (screen = LoadingScreen ↔ session st = None ∧ loading st = true).
Proof.
  intros R.
  destruct (render_cases _ _ _ R) as [([sess S] & -> & ->)|(S & -> & ->)].
  - unfold renderChat. cbn [session setView]. rewrite S. split.
    + split; [eauto|]. intros _. eauto.
    + split; [discriminate|]. intros [? _]. discriminate.
  - rewrite S. split.
    + split.
      * intros [panel E]. destruct (loading st); [discriminate|].
        destruct (view st); discriminate.
      * intros [x Hx]. discriminate.
    + destruct (loading st); [done|].
      split; [|intros [_ ?]; discriminate].
      destruct (view st); discriminate.
Qed.

Lemma screen_selection_witness :
  render RE_RENDER_LIMIT initial = Some (initial, LoadingScreen)
  ∧ (LoadingScreen = LoadingScreen ↔ session initial = None ∧ loading initial = true).
Proof.
  split; [reflexivity|].
  exact (proj2 (screen_selection initial initial LoadingScreen eq_refl)).
Defined.
